(** * RenderForwardTask: the forward render graph and its GPU passes

    A shallow embedding of [libraries/render-utils/src/RenderForwardTask.cpp].
    The C++ methods mutate the render arguments, the GPU context and the
    objects behind shared pointers; here they are computations in a state
    and failure monad over an explicit [World] that holds those objects.
    Pointers are indices into the world's object stores, so that identity
    (which object, not which value) can be stated. *)

From Stdlib Require Import ZArith QArith_base String List Lia.
From stdpp Require Import base option list functions gmap strings.

Local Open Scope Z_scope.

(** ** glm vectors *)

Record ivec4 := { iv_x : Z; iv_y : Z; iv_z : Z; iv_w : Z }.
Record uvec2 := { uv_x : Z; uv_y : Z }.
Record vec4 := { v_x : Q; v_y : Q; v_z : Q; v_w : Q }.

#[global] Instance uvec2_eq_dec : EqDecision uvec2.
Proof. solve_decision. Defined.

(** Conversion of a 32-bit [int] to [unsigned int], as the [glm::uvec2]
    constructor performs it on [int] arguments. *)
Definition to_uint (i : Z) : Z := i mod 2 ^ 32.

(** The job classes of other files that the graph instantiates, with
    [OtherJob] for the classes collaborators add on their own. *)
Inductive JobType :=
| MakeLightingModel
| ZoneRendererTask
| PrepareStencil
| DrawBackgroundStage
| DrawBounds
| CompositeHUD
| Blit
| OtherJob (name : string).

(** ** What the file takes from other headers

    Types, constants and functions that [RenderForwardTask.cpp] uses and
    whose declarations live elsewhere ([ViewFrustum.h], [Transform.h],
    [gpu/Framebuffer.h], [gpu/Texture.h], [nop_frag.h],
    [StencilMaskPass.h], [ShapePipeline.h], [FadeEffect.h]). They are
    parameters of the whole development. *)
Class External := {
  Mat4 : Type;
  Transform : Type;
  ViewFrustum : Type;
  evalProjectionMatrix : ViewFrustum → Mat4;
  evalViewTransform : ViewFrustum → Transform;
  (** [Transform()], the default-constructed transform *)
  Transform_identity : Transform;
  (** [gpu::Framebuffer::Masks] *)
  BUFFER_COLOR0 : Z;
  BUFFER_DEPTH : Z;
  BUFFER_STENCIL : Z;
  (** [gpu::Texture::SINGLE_MIP] *)
  SINGLE_MIP : Z;
  (** the source text of the generated header [nop_frag.h] *)
  nop_frag : string;
  (** the stencil configuration that [PrepareStencil::drawBackground]
      installs *)
  StencilTest : Type;
  STENCIL_BACKGROUND_TEST : StencilTest;
  (** the callbacks [FadeEffect] hands to the pipeline registry *)
  BatchSetter : Type;
  ItemSetter : Type;
  getBatchSetter : BatchSetter;
  getItemUniformSetter : ItemSetter;
  (** [render::ShapePlumber], the registry of shape pipelines: a fresh one,
      the external [initForwardPipelines] that fills it, and its lookup,
      which answers the null pointer for a key it does not hold *)
  ShapePlumber : Type;
  ShapePlumber_new : ShapePlumber;
  initForwardPipelines : ShapePlumber → BatchSetter → ItemSetter → ShapePlumber;
  pickPipeline : ShapePlumber → N → option nat;
  (** the jobs of other files: the state a node keeps, the values they
      pass through varyings, and their construction *)
  JobState : Type;
  OtherValue : Type;
  newJob : JobType → JobState;
}.

(** ** gpu objects *)

Inductive Dimension := SCALAR.
Inductive ElementType := UINT32.
Inductive Semantic := DEPTH_STENCIL.
Inductive Element :=
| COLOR_SRGBA_32
| Element_of (dim : Dimension) (type : ElementType) (sem : Semantic).

Inductive Filter := FILTER_MIN_MAG_POINT.
Record Sampler := { _filter : Filter }.

Inductive ComparisonFunction := LESS_EQUAL.
Inductive Primitive := TRIANGLE_STRIP.

(** Shared pointers: [None] is the null pointer, [Some n] points to the
    n-th object of the corresponding store of the [World]. *)
Definition TexturePointer := option nat.
Definition FramebufferPointer := option nat.
Definition PipelinePointer := option nat.

Inductive ShaderPointer :=
| DrawUnitQuadTexcoordVS   (* the shader StandardShaderLib hands out *)
| ShaderObject (n : nat).

(** Modelled from the spec: [gpu::Texture], declared in the gpu library;
    a render buffer has the format, size, mip count and sampler it was
    created with. *)
Record Texture := {
  _texelFormat : Element;
  _width : Z;
  _height : Z;
  _numMips : Z;
  _sampler : Sampler;
}.

(** Modelled from the spec: [gpu::Framebuffer], declared in
    [gpu/Framebuffer.h]. "Framebuffer resource: owns a color attachment
    and a combined depth/stencil attachment, both sized to the current
    viewport": the object keeps its attachments by slot and the size of
    the buffers attached to it. *)
Record Framebuffer := {
  fb_name : string;
  fb_renderBuffers : gmap nat nat;
  fb_depthStencilBuffer : option (nat * Element);
  fb_size : uvec2;
}.

Inductive Shader :=
| Shader_Pixel (source : string)
| Shader_Program (vs ps : ShaderPointer) (made : bool).

Record DepthTest := { dt_enabled : bool; dt_writeMask : bool; dt_function : ComparisonFunction }.

Section Forward.
Context {ext : External}.

(** Modelled from the spec: [gpu::State], declared in the gpu library,
    with the depth test and the stencil test the stencil pass sets; a
    field left at [None] keeps the library's default. *)
Record State := {
  st_depthTest : option DepthTest;
  st_stencilTest : option StencilTest;
}.

Record Pipeline := { _program : ShaderPointer; _state : State }.

(** Modelled from the spec: the render items, declared in the render
    library. "RenderItem: opaque handle into an external item store; has
    a transform, bounding volume, and a material/pipeline key"; of these
    the dispatch reads the key. *)
Definition ShapeKey := N.
Record Item := { item_id : nat; item_key : ShapeKey }.
Definition ItemBounds := list Item.

(** Modelled from the spec: [gpu::Batch], declared in the gpu library,
    "a scoped recording of GPU commands". The commands have one
    constructor per [Batch] method the file calls; [drawItem] stands for
    the draw call an item issues when it renders itself. *)
Inductive Command :=
| enableStereo (enable : bool)
| enableSkybox (enable : bool)
| setViewportTransform (viewport : ivec4)
| setStateScissorRect (rect : ivec4)
| setFramebuffer (framebuffer : FramebufferPointer)
| clearFramebuffer (targets : Z) (color : vec4) (depth : Q) (stencil : Z) (enableScissor : bool)
| setProjectionTransform (proj : Mat4)
| setViewTransform (view : Transform)
| setModelTransform (model : Transform)
| setPipeline (pipeline : PipelinePointer)
| draw (primitive : Primitive) (numVertices : Z)
| drawItem (item : nat).

Definition Batch := list Command.

(** ** The world *)

Record RenderArgs := {
  _viewport : ivec4;
  _batch : option nat;          (* gpu::Batch*, null or the id of a batch *)
  _viewFrustum : ViewFrustum;   (* what getViewFrustum() returns *)
}.

Record World := {
  args : RenderArgs;                 (* renderContext->args *)
  textures : list Texture;
  framebuffers : list Framebuffer;
  shaders : list Shader;
  pipelines : list Pipeline;
  batches : list (option Batch);     (* Batch objects; None once destroyed *)
  frame : list Batch;                (* batches appended to args->_context *)
}.

Definition with_args (a : RenderArgs) (w : World) : World :=
  {| args := a; textures := textures w; framebuffers := framebuffers w;
     shaders := shaders w; pipelines := pipelines w; batches := batches w;
     frame := frame w |}.
Definition with_textures (t : list Texture) (w : World) : World :=
  {| args := args w; textures := t; framebuffers := framebuffers w;
     shaders := shaders w; pipelines := pipelines w; batches := batches w;
     frame := frame w |}.
Definition with_framebuffers (f : list Framebuffer) (w : World) : World :=
  {| args := args w; textures := textures w; framebuffers := f;
     shaders := shaders w; pipelines := pipelines w; batches := batches w;
     frame := frame w |}.
Definition with_shaders (s : list Shader) (w : World) : World :=
  {| args := args w; textures := textures w; framebuffers := framebuffers w;
     shaders := s; pipelines := pipelines w; batches := batches w;
     frame := frame w |}.
Definition with_pipelines (p : list Pipeline) (w : World) : World :=
  {| args := args w; textures := textures w; framebuffers := framebuffers w;
     shaders := shaders w; pipelines := p; batches := batches w;
     frame := frame w |}.
Definition with_batches (b : list (option Batch)) (w : World) : World :=
  {| args := args w; textures := textures w; framebuffers := framebuffers w;
     shaders := shaders w; pipelines := pipelines w; batches := b;
     frame := frame w |}.
Definition with_frame (f : list Batch) (w : World) : World :=
  {| args := args w; textures := textures w; framebuffers := framebuffers w;
     shaders := shaders w; pipelines := pipelines w; batches := batches w;
     frame := f |}.

(** ** The monad: state over the world, [None] for undefined behaviour
    (a null or dangling pointer dereferenced). *)

Definition M (A : Type) : Type := World → option (A * World).

#[global] Instance M_ret : MRet M := λ A x w, Some (x, w).
#[global] Instance M_bind : MBind M := λ A B f m w,
  match m w with
  | Some (x, w') => f x w'
  | None => None
  end.

Definition gets {A} (f : World → A) : M A := λ w, Some (f w, w).
Definition modify (f : World → World) : M unit := λ w, Some (tt, f w).
Definition fail {A} : M A := λ _, None.
Definition lift {A} (o : option A) : M A :=
  match o with Some x => mret x | None => fail end.

(** [args->_batch = b] *)
Definition set_batch (b : option nat) : M unit :=
  modify (λ w, with_args {| _viewport := _viewport (args w); _batch := b;
                            _viewFrustum := _viewFrustum (args w) |} w).

(** ** The gpu library, as far as the file calls it *)

(** Modelled from the spec: [gpu::Texture::createRenderBuffer], defined in
    the gpu library; it allocates a new texture object of the requested
    format and size. *)
Definition Texture_createRenderBuffer (texelFormat : Element) (width height numMips : Z)
    (sampler : Sampler) : M TexturePointer := λ w,
  let t := {| _texelFormat := texelFormat; _width := width; _height := height;
              _numMips := numMips; _sampler := sampler |} in
  Some (Some (length (textures w)), with_textures (textures w ++ [t]) w).

Definition Texture_deref (p : TexturePointer) : M Texture := λ w,
  lift (p ≫= λ n, textures w !! n) w.

(** Modelled from the spec: [gpu::Framebuffer::create], defined in the gpu
    library; a new framebuffer object without attachments. *)
Definition Framebuffer_create (name : string) : M FramebufferPointer := λ w,
  let fb := {| fb_name := name; fb_renderBuffers := ∅; fb_depthStencilBuffer := None;
               fb_size := {| uv_x := 0; uv_y := 0 |} |} in
  Some (Some (length (framebuffers w)), with_framebuffers (framebuffers w ++ [fb]) w).

Definition Framebuffer_deref (p : FramebufferPointer) : M Framebuffer := λ w,
  lift (p ≫= λ n, framebuffers w !! n) w.

Definition Framebuffer_store (p : FramebufferPointer) (fb : Framebuffer) : M unit :=
  match p with
  | Some n => modify (λ w, with_framebuffers (<[n := fb]> (framebuffers w)) w)
  | None => fail
  end.

Definition Texture_size (t : Texture) : uvec2 := {| uv_x := _width t; uv_y := _height t |}.

(** Modelled from the spec: [gpu::Framebuffer::setRenderBuffer], defined
    in the gpu library; attaches the texture to the slot of the object
    [p] points to, which takes the size of the buffer. *)
Definition Framebuffer_setRenderBuffer (p : FramebufferPointer) (slot : nat)
    (texture : TexturePointer) : M unit :=
  fb ← Framebuffer_deref p;
  match texture with
  | Some tn =>
      t ← Texture_deref texture;
      Framebuffer_store p
        {| fb_name := fb_name fb; fb_renderBuffers := <[slot := tn]> (fb_renderBuffers fb);
           fb_depthStencilBuffer := fb_depthStencilBuffer fb; fb_size := Texture_size t |}
  | None =>
      Framebuffer_store p
        {| fb_name := fb_name fb; fb_renderBuffers := delete slot (fb_renderBuffers fb);
           fb_depthStencilBuffer := fb_depthStencilBuffer fb; fb_size := fb_size fb |}
  end.

(** Modelled from the spec: [gpu::Framebuffer::setDepthStencilBuffer],
    defined in the gpu library. *)
Definition Framebuffer_setDepthStencilBuffer (p : FramebufferPointer)
    (texture : TexturePointer) (format : Element) : M unit :=
  fb ← Framebuffer_deref p;
  match texture with
  | Some tn =>
      t ← Texture_deref texture;
      Framebuffer_store p
        {| fb_name := fb_name fb; fb_renderBuffers := fb_renderBuffers fb;
           fb_depthStencilBuffer := Some (tn, format); fb_size := Texture_size t |}
  | None =>
      Framebuffer_store p
        {| fb_name := fb_name fb; fb_renderBuffers := fb_renderBuffers fb;
           fb_depthStencilBuffer := None; fb_size := fb_size fb |}
  end.

(** [p->getSize()] *)
Definition Framebuffer_getSize (p : FramebufferPointer) : M uvec2 :=
  fb ← Framebuffer_deref p; mret (fb_size fb).

(** Modelled from the spec: [gpu::Shader::createPixel], [createProgram]
    and [makeProgram], defined in the gpu library; each create call
    allocates one shader object, [makeProgram] marks a program as made. *)
Definition Shader_createPixel (source : string) : M ShaderPointer := λ w,
  Some (ShaderObject (length (shaders w)), with_shaders (shaders w ++ [Shader_Pixel source]) w).

Definition Shader_createProgram (vs ps : ShaderPointer) : M ShaderPointer := λ w,
  Some (ShaderObject (length (shaders w)),
        with_shaders (shaders w ++ [Shader_Program vs ps false]) w).

Definition Shader_makeProgram (program : ShaderPointer) : M unit :=
  match program with
  | ShaderObject n =>
      modify (λ w, match shaders w !! n with
                   | Some (Shader_Program vs ps _) =>
                       with_shaders (<[n := Shader_Program vs ps true]> (shaders w)) w
                   | _ => w
                   end)
  | DrawUnitQuadTexcoordVS => mret tt
  end.

(** [std::make_shared<gpu::State>()] and [State::setDepthTest] *)
Definition State_new : State := {| st_depthTest := None; st_stencilTest := None |}.

Definition State_setDepthTest (state : State) (enabled writeMask : bool)
    (func : ComparisonFunction) : State :=
  {| st_depthTest := Some {| dt_enabled := enabled; dt_writeMask := writeMask;
                             dt_function := func |};
     st_stencilTest := st_stencilTest state |}.

(** Modelled from the spec: [PrepareStencil::drawBackground], defined in
    [StencilMaskPass.cpp]. "The render state additionally disables the
    regions that should later be treated as background via an externally
    defined stencil configuration": it installs that stencil test and
    leaves the rest of the state. *)
Definition PrepareStencil_drawBackground (state : State) : State :=
  {| st_depthTest := st_depthTest state; st_stencilTest := Some STENCIL_BACKGROUND_TEST |}.

(** Modelled from the spec: [gpu::Pipeline::create], defined in the gpu
    library; a new pipeline object holding the program and the state. *)
Definition Pipeline_create (program : ShaderPointer) (state : State) : M PipelinePointer := λ w,
  Some (Some (length (pipelines w)),
        with_pipelines (pipelines w ++ [{| _program := program; _state := state |}]) w).

(** *** Batches *)

Definition Batch_new : M nat := λ w,
  Some (length (batches w), with_batches (batches w ++ [Some []]) w).

Definition Batch_deref (batch : nat) : M Batch := λ w,
  lift (mjoin (batches w !! batch)) w.

(** [batch.c(...)]: the batch records the command. *)
Definition emit (batch : nat) (c : Command) : M unit :=
  b ← Batch_deref batch;
  modify (λ w, with_batches (<[batch := Some (b ++ [c])]> (batches w)) w).

Definition Batch_destroy (batch : nat) : M unit :=
  modify (λ w, with_batches (<[batch := None]> (batches w)) w).

(** Modelled from the spec: [gpu::doInBatch], defined in [gpu/Context.h].
    "open-batch-and-submit scoped execution": a batch object local to the
    call is handed to [f], appended to the frame of the context when [f]
    returns, and destroyed at the end of the scope. The result of [f]
    carries what the C++ lambda changes through its by-reference
    captures. *)
Definition doInBatch {A} (f : nat → M A) : M A :=
  batch ← Batch_new;
  r ← f batch;
  b ← Batch_deref batch;
  modify (λ w, with_frame (frame w ++ [b]) w);;
  Batch_destroy batch;;
  mret r.

(** ** PrepareFramebuffer *)

Record PrepareFramebuffer := { _framebuffer : FramebufferPointer }.

(** [PrepareFramebuffer::run]. The out-parameter [framebuffer] is the
    second component of the result. *)
Definition PrepareFramebuffer_run (self : PrepareFramebuffer)
    : M (PrepareFramebuffer * FramebufferPointer) :=
  viewport ← gets (λ w, _viewport (args w));
  let frameSize := {| uv_x := to_uint (iv_z viewport); uv_y := to_uint (iv_w viewport) |} in
  self ← (if _framebuffer self is Some _
          then size ← Framebuffer_getSize (_framebuffer self);
               if decide (size ≠ frameSize)
               then mret {| _framebuffer := None |}
               else mret self
          else mret self);
  self ← (if _framebuffer self is None
          then
            fb ← Framebuffer_create "forward";
            let self := {| _framebuffer := fb |} in
            let colorFormat := COLOR_SRGBA_32 in
            let defaultSampler := {| _filter := FILTER_MIN_MAG_POINT |} in
            colorTexture ← Texture_createRenderBuffer colorFormat (uv_x frameSize)
                             (uv_y frameSize) SINGLE_MIP defaultSampler;
            Framebuffer_setRenderBuffer (_framebuffer self) 0 colorTexture;;
            let depthFormat := Element_of SCALAR UINT32 DEPTH_STENCIL in
            depthTexture ← Texture_createRenderBuffer depthFormat (uv_x frameSize)
                             (uv_y frameSize) SINGLE_MIP defaultSampler;
            Framebuffer_setDepthStencilBuffer (_framebuffer self) depthTexture depthFormat;;
            mret self
          else mret self);
  args_viewport ← gets (λ w, _viewport (args w));
  doInBatch (λ batch,
    emit batch (enableStereo false);;
    emit batch (setViewportTransform args_viewport);;
    emit batch (setStateScissorRect args_viewport);;
    emit batch (setFramebuffer (_framebuffer self));;
    emit batch (clearFramebuffer
                  (Z.lor (Z.lor BUFFER_COLOR0 BUFFER_DEPTH) BUFFER_STENCIL)
                  {| v_x := 0; v_y := 0; v_z := 0; v_w := 1 |} 1 0 true));;
  mret (self, _framebuffer self).

(** ** Stencil *)

Record Stencil := { _stencilPipeline : PipelinePointer }.

(** [Stencil::getPipeline]; the node it may have updated is returned with
    the pipeline. *)
Definition Stencil_getPipeline (self : Stencil) : M (Stencil * PipelinePointer) :=
  self ← (if _stencilPipeline self is None
          then
            let vs := DrawUnitQuadTexcoordVS in
            ps ← Shader_createPixel nop_frag;
            program ← Shader_createProgram vs ps;
            Shader_makeProgram program;;
            let state := State_new in
            let state := State_setDepthTest state true false LESS_EQUAL in
            let state := PrepareStencil_drawBackground state in
            pipeline ← Pipeline_create program state;
            mret {| _stencilPipeline := pipeline |}
          else mret self);
  mret (self, _stencilPipeline self).

(** The lambda [Stencil::run] hands to [doInBatch]. *)
Definition Stencil_run_body (self : Stencil) (batch : nat) : M Stencil :=
  set_batch (Some batch);;
  viewport ← gets (λ w, _viewport (args w));
  emit batch (enableStereo false);;
  emit batch (setViewportTransform viewport);;
  emit batch (setStateScissorRect viewport);;
  '(self, pipeline) ← Stencil_getPipeline self;
  emit batch (setPipeline pipeline);;
  emit batch (draw TRIANGLE_STRIP 4);;
  mret self.

(** [Stencil::run] *)
Definition Stencil_run (self : Stencil) : M Stencil :=
  self ← doInBatch (Stencil_run_body self);
  set_batch None;;
  mret self.

(** ** Draw and DrawBackground *)

(** The two functions of [render/DrawTask.h] the passes call. Both work
    through the render context, that is on the world. *)
Class DrawTask := {
  renderStateSortShapes : ShapePlumber → ItemBounds → Z → M unit;
}.
Class RenderItems := {
  renderItems : ItemBounds → M unit;
}.

Record Draw := { _shapePlumber : ShapePlumber }.

(** The lambda [Draw::run] hands to [doInBatch]. *)
Definition Draw_run_body {drawTask : DrawTask} (self : Draw) (items : ItemBounds) (batch : nat) : M unit :=
  set_batch (Some batch);;
  (* Setup projection *)
  frustum ← gets (λ w, _viewFrustum (args w));
  let projMat := evalProjectionMatrix frustum in
  let viewMat := evalViewTransform frustum in
  emit batch (setProjectionTransform projMat);;
  emit batch (setViewTransform viewMat);;
  emit batch (setModelTransform Transform_identity);;
  (* Render items *)
  renderStateSortShapes (_shapePlumber self) items (-1).

(** [Draw::run] *)
Definition Draw_run {drawTask : DrawTask} (self : Draw) (items : ItemBounds) : M unit :=
  doInBatch (Draw_run_body self items);;
  set_batch None.

(** The lambda [DrawBackground::run] hands to [doInBatch]. *)
Definition DrawBackground_run_body {render : RenderItems} (background : ItemBounds) (batch : nat) : M unit :=
  set_batch (Some batch);;
  viewport ← gets (λ w, _viewport (args w));
  emit batch (enableSkybox true);;
  emit batch (setViewportTransform viewport);;
  emit batch (setStateScissorRect viewport);;
  (* Setup projection *)
  frustum ← gets (λ w, _viewFrustum (args w));
  let projMat := evalProjectionMatrix frustum in
  let viewMat := evalViewTransform frustum in
  emit batch (setProjectionTransform projMat);;
  emit batch (setViewTransform viewMat);;
  renderItems background.

(** [DrawBackground::run] *)
Definition DrawBackground_run {render : RenderItems} (background : ItemBounds) : M unit :=
  doInBatch (DrawBackground_run_body background);;
  set_batch None.

(** ** The task graph *)

(** The buckets of [RenderFetchCullSortTask] that [build] reads. *)
Inductive Bucket := OPAQUE_SHAPE | TRANSPARENT_SHAPE | META.

(** Modelled from the spec: [render::Varying], declared in the task
    library. "Varying: a named, typed slot": a varying is a shared handle
    on a slot, and two handles are the same varying when they name the
    same slot. The slots are the buckets of the input and the outputs of
    the jobs, by position in the task. *)
Inductive Varying :=
| Varying_none
| Varying_input (b : Bucket)
| Varying_output (job : nat).

#[global] Instance Bucket_eq_dec : EqDecision Bucket.
Proof. solve_decision. Defined.
#[global] Instance Varying_eq_dec : EqDecision Varying.
Proof. solve_decision. Defined.

(** Modelled from the spec: a job of the task library, "identity (name),
    a declared input-varying set [...] and internal state". The object a
    job owns is a node of this file or the state of a node of another
    file. *)
Inductive JobData :=
| Job_PrepareFramebuffer (data : PrepareFramebuffer)
| Job_Draw (data : Draw)
| Job_external (type : JobType) (data : JobState).

Record Job := { job_name : string; job_input : Varying; job_data : JobData }.

Record JobModel := { _jobs : list Job }.

(** Modelled from the spec: [JobModel::addJob], defined in the task
    library. "Task graph builder: builds the fixed node sequence once
    [...] threading outputs to subsequent nodes' inputs": the job is
    appended to the jobs of the task and its output varying returned. *)
Definition addJob (task : JobModel) (name : string) (data : JobData) (input : Varying)
    : JobModel * Varying :=
  ({| _jobs := _jobs task ++ [{| job_name := name; job_input := input; job_data := data |}] |},
   Varying_output (length (_jobs task))).

(** [FadeEffect::build], which receives the task and may add jobs to it. *)
Class FadeEffect := {
  FadeEffect_build : JobModel → Varying → JobModel;
}.

(** [RenderForwardTask::build]. [items] is [input.get<Input>().get0()],
    the bucket varyings. *)
Definition RenderForwardTask_build {fadeEffect : FadeEffect} (task : JobModel) (items : Bucket → Varying)
    : JobModel :=
  (* Prepare the ShapePipelines *)
  let shapePlumber := initForwardPipelines ShapePlumber_new getBatchSetter getItemUniformSetter in
  (* Extract opaques / transparents / lights / metas / overlays / background *)
  let opaques := items OPAQUE_SHAPE in
  let transparents := items TRANSPARENT_SHAPE in
  let metas := items META in
  let task := FadeEffect_build task opaques in
  (* Prepare objects shared by several jobs *)
  let '(task, lightingModel) :=
    addJob task "LightingModel" (Job_external MakeLightingModel (newJob MakeLightingModel))
      Varying_none in
  (* Filter zones from the general metas bucket *)
  let '(task, zones) :=
    addJob task "ZoneRenderer" (Job_external ZoneRendererTask (newJob ZoneRendererTask)) metas in
  (* GPU jobs: Start preparing the main framebuffer *)
  let '(task, framebuffer) :=
    addJob task "PrepareFramebuffer" (Job_PrepareFramebuffer {| _framebuffer := None |})
      Varying_none in
  (* draw a stencil mask in hidden regions of the framebuffer. *)
  let '(task, _) :=
    addJob task "PrepareStencil" (Job_external PrepareStencil (newJob PrepareStencil))
      framebuffer in
  (* Draw opaques forward *)
  let '(task, _) :=
    addJob task "DrawOpaques" (Job_Draw {| _shapePlumber := shapePlumber |}) opaques in
  let '(task, _) :=
    addJob task "DrawBackgroundDeferred"
      (Job_external DrawBackgroundStage (newJob DrawBackgroundStage)) lightingModel in
  (* Draw transparent objects forward *)
  let '(task, _) :=
    addJob task "DrawTransparents" (Job_Draw {| _shapePlumber := shapePlumber |}) transparents in
  (* Debug the bounds of the rendered items, still look at the zbuffer *)
  let '(task, _) :=
    addJob task "DrawMetaBounds" (Job_external DrawBounds (newJob DrawBounds)) metas in
  let '(task, _) :=
    addJob task "DrawBounds" (Job_external DrawBounds (newJob DrawBounds)) opaques in
  let '(task, _) :=
    addJob task "DrawTransparentBounds" (Job_external DrawBounds (newJob DrawBounds))
      transparents in
  let '(task, _) :=
    addJob task "DrawZones" (Job_external DrawBounds (newJob DrawBounds)) zones in
  (* Composite the HUD and HUD overlays *)
  let '(task, _) :=
    addJob task "HUD" (Job_external CompositeHUD (newJob CompositeHUD)) Varying_none in
  (* Blit! *)
  let '(task, _) :=
    addJob task "Blit" (Job_external Blit (newJob Blit)) framebuffer in
  task.

(** ** Running the graph for one frame *)

(** Modelled from the spec: what a varying holds, "any of: an ItemBucket,
    a framebuffer handle, a lighting-model descriptor, a shape-pipeline
    registry handle". *)
Inductive Value :=
| Value_none
| Value_items (items : ItemBounds)
| Value_framebuffer (framebuffer : FramebufferPointer)
| Value_other (v : OtherValue).

(** Modelled from the spec: the [run] of the jobs of other files. "GPU
    batch/context [...] This core treats it as the sole side-effect
    channel" and "the framebuffer resource is mutated only by
    PrepareFramebuffer": such a job reads its input and the render
    arguments, keeps its own state, writes its output and submits
    batches; what it writes and submits is a parameter. *)
Class ExternalJobs := {
  runJob : JobType → JobState → Value → RenderArgs → JobState * Value * list Batch;
}.

(** One job: the node it leaves and the value of its output varying. *)
Definition run_job {drawTask : DrawTask} {externalJobs : ExternalJobs} (j : Job) (input : Value) : M (Job * Value) :=
  match job_data j with
  | Job_PrepareFramebuffer self =>
      '(self, framebuffer) ← PrepareFramebuffer_run self;
      mret ({| job_name := job_name j; job_input := job_input j;
               job_data := Job_PrepareFramebuffer self |},
            Value_framebuffer framebuffer)
  | Job_Draw self =>
      match input with
      | Value_items items => Draw_run self items;; mret (j, Value_none)
      | _ => fail
      end
  | Job_external type data =>
      a ← gets args;
      let '(data, output, submitted) := runJob type data input a in
      modify (λ w, with_frame (frame w ++ submitted) w);;
      mret ({| job_name := job_name j; job_input := job_input j;
               job_data := Job_external type data |},
            output)
  end.

(** What the run of a job is seen to do. *)
Record JobRun := {
  run_name : string;
  run_input : Value;
  run_output : Value;
  run_batches : list Batch;
}.

(** Modelled from the spec: the [run] of a task, defined in the task
    library. "Nodes execute in the exact sequence fixed at build time;
    varying writes from node N are visible to all nodes after N in that
    sequence and to no node before it": the jobs run in the order of the
    task, each on the current value of its input varying, each writing
    its own output varying. The result lists the nodes as the frame
    leaves them, the varyings, and the runs in order. *)
Fixpoint run_jobs {drawTask : DrawTask} {externalJobs : ExternalJobs} (i : nat) (js : list Job) (vs : Varying → Value)
    : M (list Job * (Varying → Value) * list JobRun) :=
  match js with
  | [] => mret ([], vs, [])
  | j :: js =>
      before ← gets frame;
      '(j', output) ← run_job j (vs (job_input j));
      after ← gets frame;
      let r := {| run_name := job_name j; run_input := vs (job_input j);
                  run_output := output;
                  run_batches := drop (length before) after |} in
      '(js', vs', rs) ← run_jobs (S i) js (<[Varying_output i := output]> vs);
      mret (j' :: js', vs', r :: rs)
  end.

Definition Task_run {drawTask : DrawTask} {externalJobs : ExternalJobs} (task : JobModel) (vs : Varying → Value)
    : M (list Job * (Varying → Value) * list JobRun) :=
  run_jobs 0 (_jobs task) vs.

(** ** The shape dispatch, from the specification *)

Fixpoint forM_ {A} (l : list A) (f : A → M unit) : M unit :=
  match l with
  | [] => mret tt
  | x :: l => f x;; forM_ l f
  end.

(** The keys of a bucket, each once, in increasing order. *)
Fixpoint insert_key (k : ShapeKey) (ks : list ShapeKey) : list ShapeKey :=
  match ks with
  | [] => [k]
  | k' :: ks' =>
      if (k <? k')%N then k :: ks
      else if (k =? k')%N then ks
      else k' :: insert_key k ks'
  end.

Definition sorted_keys (items : ItemBounds) : list ShapeKey :=
  foldr (λ item ks, insert_key (item_key item) ks) [] items.

Definition group (key : ShapeKey) (items : ItemBounds) : ItemBounds :=
  List.filter (λ item, (item_key item =? key)%N) items.

(** Modelled from the spec: [render::renderStateSortShapes], defined in
    [render/DrawTask.cpp]. "Within this batch, group items by pipeline
    key, sort groups by a key-derived ordering (stable, deterministic
    across frames), and for each group bind its pipeline state once and
    issue one draw call per item in the group. [...] a failed item (e.g.,
    missing pipeline) is skipped; dispatch does not abort." The batch is
    the one [args->_batch] points to. The specification knows no limit
    on the number of items, so the last argument is not read. *)
Definition renderStateSortShapes_spec (plumber : ShapePlumber) (items : ItemBounds)
    (maxDrawnItems : Z) : M unit :=
  current ← gets (λ w, _batch (args w));
  batch ← lift current;
  forM_ (sorted_keys items) (λ key,
    match pickPipeline plumber key with
    | Some pipeline =>
        emit batch (setPipeline (Some pipeline));;
        forM_ (group key items) (λ item, emit batch (drawItem (item_id item)))
    | None => mret tt
    end).

Definition DrawTask_spec : DrawTask :=
  {| renderStateSortShapes := renderStateSortShapes_spec |}.


(** ** Vocabulary of the statements *)




Definition is_clear (c : Command) : bool :=
  match c with clearFramebuffer _ _ _ _ _ => true | _ => false end.

(** The size [PrepareFramebuffer::run] computes from the viewport. *)
Definition frameSize (w : World) : uvec2 :=
  {| uv_x := to_uint (iv_z (_viewport (args w))); uv_y := to_uint (iv_w (_viewport (args w))) |}.

(** The node points to a framebuffer object of the world, or to none. *)
Definition node_ok (self : PrepareFramebuffer) (w : World) : Prop :=
  match _framebuffer self with
  | Some n => (n < length (framebuffers w))%nat
  | None => True
  end.

(** Frames one after the other, as far as [PrepareFramebuffer] sees
    them: the viewport of the frame is set in the render arguments, then
    the node runs. *)
Definition with_viewport (viewport : ivec4) (w : World) : World :=
  with_args {| _viewport := viewport; _batch := _batch (args w);
               _viewFrustum := _viewFrustum (args w) |} w.

Fixpoint PrepareFramebuffer_frames (viewports : list ivec4) (self : PrepareFramebuffer)
    : M PrepareFramebuffer :=
  match viewports with
  | [] => mret self
  | viewport :: viewports =>
      modify (with_viewport viewport);;
      '(self, _) ← PrepareFramebuffer_run self;
      PrepareFramebuffer_frames viewports self
  end.

Definition clear_batch (w : World) (p : FramebufferPointer) : Batch :=
  [ enableStereo false; setViewportTransform (_viewport (args w));
    setStateScissorRect (_viewport (args w)); setFramebuffer p;
    clearFramebuffer (Z.lor (Z.lor BUFFER_COLOR0 BUFFER_DEPTH) BUFFER_STENCIL)
      {| v_x := 0; v_y := 0; v_z := 0; v_w := 1 |} 1 0 true ].

(** The world once a batch has been recorded, appended to the frame and
    destroyed. *)
Definition submitted (b : Batch) (w : World) : World :=
  with_frame (frame w ++ [b]) (with_batches (batches w ++ [None]) w).

Definition forward_textures (w : World) : list Texture :=
  [ {| _texelFormat := COLOR_SRGBA_32; _width := uv_x (frameSize w);
       _height := uv_y (frameSize w); _numMips := SINGLE_MIP;
       _sampler := {| _filter := FILTER_MIN_MAG_POINT |} |};
    {| _texelFormat := Element_of SCALAR UINT32 DEPTH_STENCIL; _width := uv_x (frameSize w);
       _height := uv_y (frameSize w); _numMips := SINGLE_MIP;
       _sampler := {| _filter := FILTER_MIN_MAG_POINT |} |} ].

Definition forward_framebuffer (w : World) : Framebuffer :=
  {| fb_name := "forward";
     fb_renderBuffers := <[0%nat := length (textures w)]> ∅;
     fb_depthStencilBuffer :=
       Some (S (length (textures w)), Element_of SCALAR UINT32 DEPTH_STENCIL);
     fb_size := frameSize w |}.

(** The world once [PrepareFramebuffer::run] has built its framebuffer. *)
Definition allocated (w : World) : World :=
  with_framebuffers (framebuffers w ++ [forward_framebuffer w])
    (with_textures (textures w ++ forward_textures w) w).

Definition no_batch (w : World) : World :=
  with_args {| _viewport := _viewport (args w); _batch := None;
               _viewFrustum := _viewFrustum (args w) |} w.

Definition stencil_batch (w : World) (p : PipelinePointer) : Batch :=
  [ enableStereo false; setViewportTransform (_viewport (args w));
    setStateScissorRect (_viewport (args w)); setPipeline p; draw TRIANGLE_STRIP 4 ].

Definition stencil_state : State :=
  {| st_depthTest := Some {| dt_enabled := true; dt_writeMask := false;
                             dt_function := LESS_EQUAL |};
     st_stencilTest := Some STENCIL_BACKGROUND_TEST |}.

Definition stencil_shaders (w : World) : list Shader :=
  [ Shader_Pixel nop_frag;
    Shader_Program DrawUnitQuadTexcoordVS (ShaderObject (length (shaders w))) true ].

Definition stencil_pipeline (w : World) : Pipeline :=
  {| _program := ShaderObject (S (length (shaders w))); _state := stencil_state |}.

(** [n] runs of [Stencil::run] on one node. *)
Fixpoint Stencil_runs (n : nat) (self : Stencil) : M Stencil :=
  match n with
  | O => mret self
  | S n => self ← Stencil_run self; Stencil_runs n self
  end.

(** The world in which [Draw::run] calls [renderStateSortShapes]: one
    more batch, open, holding the three transforms, and [args->_batch]
    pointing to it. *)
Definition Draw_transforms (w : World) : Batch :=
  [ setProjectionTransform (evalProjectionMatrix (_viewFrustum (args w)));
    setViewTransform (evalViewTransform (_viewFrustum (args w)));
    setModelTransform Transform_identity ].

Definition in_batch (b : Batch) (w : World) : World :=
  with_batches (batches w ++ [Some b])
    (with_args {| _viewport := _viewport (args w); _batch := Some (length (batches w));
                  _viewFrustum := _viewFrustum (args w) |} w).

Definition DrawBackground_setup (w : World) : Batch :=
  [ enableSkybox true; setViewportTransform (_viewport (args w));
    setStateScissorRect (_viewport (args w));
    setProjectionTransform (evalProjectionMatrix (_viewFrustum (args w)));
    setViewTransform (evalViewTransform (_viewFrustum (args w))) ].

(** What [doInBatch] and the reset of [args->_batch] do once the lambda
    has returned in [w1], for the batch with id [batch]. *)
Definition close_batch (batch : nat) (w1 : World) : option (unit * World) :=
  match mjoin (batches w1 !! batch) with
  | Some b =>
      Some (tt, no_batch (with_batches (<[batch := None]> (batches w1))
                            (with_frame (frame w1 ++ [b]) w1)))
  | None => None
  end.

(** A computation that leaves the render arguments as they are. *)
Definition keeps_args {A} (m : M A) : Prop :=
  ∀ w r w', m w = Some (r, w') → args w' = args w.

(** The invocations of the three passes that set [args->_batch]. *)
Inductive Invocation :=
| Run_Draw (self : Draw) (items : ItemBounds)
| Run_Stencil (self : Stencil)
| Run_DrawBackground (background : ItemBounds).

Definition invoke {drawTask : DrawTask} {render : RenderItems} (i : Invocation) : M unit :=
  match i with
  | Run_Draw self items => Draw_run self items
  | Run_Stencil self => Stencil_run self;; mret tt
  | Run_DrawBackground background => DrawBackground_run background
  end.

(** ** The graph over the frames *)

(** Two jobs of the same name, input and class; a node may be in another
    state. The node of a Draw job is the same, it has no state that
    changes. *)
Definition same_job (a b : Job) : Prop :=
  job_name a = job_name b ∧
  job_input a = job_input b ∧
  match job_data a, job_data b with
  | Job_PrepareFramebuffer _, Job_PrepareFramebuffer _ => True
  | Job_Draw x, Job_Draw y => x = y
  | Job_external t _, Job_external t' _ => t = t'
  | _, _ => False
  end.

(** The task as frames leave it: the task that was built, or the task a
    frame leaves when it runs on such a task, in any world and on any
    values of the varyings. *)
Inductive frames_of {drawTask : DrawTask} {externalJobs : ExternalJobs}
    (built : JobModel) : JobModel → Prop :=
| frames_none : frames_of built built
| frames_more task vs w js' vs' rs w' :
    frames_of built task →
    Task_run task vs w = Some ((js', vs', rs), w') →
    frames_of built {| _jobs := js' |}.


(** ** Further vocabulary *)

(** The size a viewport asks of the framebuffer. *)
Definition size_of (viewport : ivec4) : uvec2 :=
  {| uv_x := to_uint (iv_z viewport); uv_y := to_uint (iv_w viewport) |}.

(** How often the size changes along a sequence of viewports, counting
    from the size [current] (none before the first frame). *)
Fixpoint size_changes (current : option uvec2) (viewports : list ivec4) : nat :=
  match viewports with
  | [] => 0%nat
  | viewport :: viewports =>
      ((if decide (current = Some (size_of viewport)) then 0 else 1)
       + size_changes (Some (size_of viewport)) viewports)%nat
  end.

(** The node owns no framebuffer, or one of the size [current]. *)
Definition owns (self : PrepareFramebuffer) (w : World) (current : option uvec2) : Prop :=
  match current with
  | None => _framebuffer self = None
  | Some size =>
      ∃ n fb, _framebuffer self = Some n ∧ framebuffers w !! n = Some fb ∧ fb_size fb = size
  end.

(** The framebuffer has the two attachments [PrepareFramebuffer::run]
    gives it, textures of the world of its own size. *)
Definition attachments_ok (w : World) (fb : Framebuffer) : Prop :=
  ∃ color depth colorTexture depthTexture,
    fb_renderBuffers fb !! 0%nat = Some color ∧
    fb_depthStencilBuffer fb = Some (depth, Element_of SCALAR UINT32 DEPTH_STENCIL) ∧
    color ≠ depth ∧
    textures w !! color = Some colorTexture ∧
    textures w !! depth = Some depthTexture ∧
    _texelFormat colorTexture = COLOR_SRGBA_32 ∧
    _texelFormat depthTexture = Element_of SCALAR UINT32 DEPTH_STENCIL ∧
    Texture_size colorTexture = fb_size fb ∧
    Texture_size depthTexture = fb_size fb ∧
    _numMips colorTexture = SINGLE_MIP ∧ _numMips depthTexture = SINGLE_MIP ∧
    _sampler colorTexture = {| _filter := FILTER_MIN_MAG_POINT |} ∧
    _sampler depthTexture = {| _filter := FILTER_MIN_MAG_POINT |}.

(** A rendering function that records the given commands in the batch
    [args->_batch] points to, and does nothing else. *)
Definition records (commands : Batch) : M unit :=
  current ← gets (λ w, _batch (args w));
  batch ← lift current;
  forM_ commands (emit batch).

Definition DrawTask_records (f : ShapePlumber → ItemBounds → Z → Batch) : DrawTask :=
  {| renderStateSortShapes := λ plumber items maxDrawnItems,
       records (f plumber items maxDrawnItems) |}.

Definition RenderItems_records (f : ItemBounds → Batch) : RenderItems :=
  {| renderItems := λ items, records (f items) |}.


End Forward.

(** ** A setting to run the development in

    Stand-ins for the collaborators: every external type is small, the
    registry holds pipelines for the keys 0 and 1, [FadeEffect] adds no
    job, the jobs of other files submit nothing, except the stencil pass,
    which submits its quad. *)
Module Example.

Definition external : External :=
  {| Mat4 := Z; Transform := Z; ViewFrustum := Z;
     evalProjectionMatrix := λ f, f; evalViewTransform := λ f, f + 1;
     Transform_identity := 0;
     BUFFER_COLOR0 := 1; BUFFER_DEPTH := 2 ^ 30; BUFFER_STENCIL := 2 ^ 31;
     SINGLE_MIP := 1;
     nop_frag := "void main(void) { }";
     StencilTest := unit; STENCIL_BACKGROUND_TEST := tt;
     BatchSetter := unit; ItemSetter := unit;
     getBatchSetter := tt; getItemUniformSetter := tt;
     ShapePlumber := list (N * nat);
     ShapePlumber_new := [];
     initForwardPipelines := λ plumber _ _, (0%N, 7%nat) :: (1%N, 8%nat) :: plumber;
     pickPipeline := λ plumber key,
       snd <$> List.find (λ entry, (fst entry =? key)%N) plumber;
     JobState := unit; OtherValue := unit;
     newJob := λ _, tt |}.

#[local] Existing Instance external.

Definition fadeEffect : FadeEffect := {| FadeEffect_build := λ task _, task |}.

Definition externalJobs : ExternalJobs :=
  {| runJob := λ type data input a,
       match type with
       | ZoneRendererTask => (data, input, [])
       | PrepareStencil =>
           (data, Value_none,
            [[ enableStereo false; setViewportTransform (_viewport a);
               setPipeline (Some 0%nat); draw TRIANGLE_STRIP 4 ]])
       | _ => (data, Value_none, [])
       end |}.

Definition render : RenderItems :=
  {| renderItems := λ items,
       current ← gets (λ w, _batch (args w));
       batch ← lift current;
       forM_ items (λ item, emit batch (drawItem (item_id item))) |}.

Definition viewport (width height : Z) : ivec4 :=
  {| iv_x := 0; iv_y := 0; iv_z := width; iv_w := height |}.

(** A world without objects, the viewport 800 by 600. *)
Definition world : World :=
  {| args := {| _viewport := viewport 800 600; _batch := None; _viewFrustum := 5 |};
     textures := []; framebuffers := []; shaders := []; pipelines := [];
     batches := []; frame := [] |}.

(** The world a first frame at 800 by 600 leaves, with the viewport then
    set to 1920 by 1080, and the node that owns its framebuffer. *)
Definition node : PrepareFramebuffer := {| _framebuffer := Some 0%nat |}.

Definition world_resized : World :=
  {| args := {| _viewport := viewport 1920 1080; _batch := None; _viewFrustum := 5 |};
     textures :=
       [ {| _texelFormat := COLOR_SRGBA_32; _width := 800; _height := 600;
            _numMips := 1; _sampler := {| _filter := FILTER_MIN_MAG_POINT |} |};
         {| _texelFormat := Element_of SCALAR UINT32 DEPTH_STENCIL; _width := 800;
            _height := 600; _numMips := 1;
            _sampler := {| _filter := FILTER_MIN_MAG_POINT |} |} ];
     framebuffers :=
       [ {| fb_name := "forward"; fb_renderBuffers := <[0%nat := 0%nat]> ∅;
            fb_depthStencilBuffer := Some (1%nat, Element_of SCALAR UINT32 DEPTH_STENCIL);
            fb_size := {| uv_x := 800; uv_y := 600 |} |} ];
     shaders := []; pipelines := []; batches := [None]; frame := [] |}.

(** Empty opaque and transparent buckets, two metas. *)
Definition varyings : Varying → Value := λ v,
  match v with
  | Varying_input OPAQUE_SHAPE | Varying_input TRANSPARENT_SHAPE => Value_items []
  | Varying_input META =>
      Value_items [ {| item_id := 1; item_key := 0%N |}; {| item_id := 2; item_key := 0%N |} ]
  | Varying_output _ => Value_none
  | Varying_none => Value_none
  end.

Definition task : JobModel :=
  RenderForwardTask_build (fadeEffect := fadeEffect) {| _jobs := [] |} Varying_input.

Definition items : ItemBounds :=
  [ {| item_id := 1; item_key := 1%N |}; {| item_id := 2; item_key := 0%N |};
    {| item_id := 3; item_key := 1%N |}; {| item_id := 4; item_key := 2%N |} ].

Definition draw : Draw :=
  {| _shapePlumber := initForwardPipelines ShapePlumber_new getBatchSetter getItemUniformSetter |}.


(** The world of [world_resized] with the viewport moved, not resized. *)
Definition world_moved : World :=
  with_viewport {| iv_x := 10; iv_y := 20; iv_z := 800; iv_w := 600 |} world_resized.

End Example.

(** * Proofs *)

Section Proofs.
Context {ext : External}.

(** ** Stores that grow at the end *)

Lemma lookup_snoc {A} (l : list A) x : (l ++ [x]) !! length l = Some x.
Proof. by apply list_lookup_middle. Qed.

Lemma insert_snoc {A} (l : list A) x y : <[length l := y]> (l ++ [x]) = l ++ [y].
Proof.
  replace (length l) with (length l + 0)%nat by lia.
  by rewrite insert_app_r.
Qed.

Lemma length_snoc {A} (l : list A) x : length (l ++ [x]) = S (length l).
Proof. rewrite length_app. simpl. lia. Qed.

(** ** Running the monad *)

Lemma bind_run {A B} (m : M A) (f : A → M B) w :
  (m ≫= f) w = match m w with Some (x, w') => f x w' | None => None end.
Proof. reflexivity. Qed.

Lemma bind_inv {A B} (m : M A) (f : A → M B) w y w2 :
  (m ≫= f) w = Some (y, w2) → ∃ x w1, m w = Some (x, w1) ∧ f x w1 = Some (y, w2).
Proof.
  rewrite bind_run. destruct (m w) as [[x w1]|]; [|done]. eauto.
Qed.

Ltac munfold :=
  unfold doInBatch, emit, Batch_new, Batch_deref, Batch_destroy, set_batch,
    Framebuffer_getSize, Framebuffer_setRenderBuffer, Framebuffer_setDepthStencilBuffer,
    Framebuffer_store, Framebuffer_deref, Framebuffer_create, Texture_deref,
    Texture_createRenderBuffer, Shader_createPixel, Shader_createProgram,
    Shader_makeProgram, Pipeline_create, gets, modify, lift, fail,
    mbind, M_bind, mret, M_ret.

Ltac mrun :=
  munfold; cbn;
  repeat (rewrite ?lookup_snoc, ?insert_snoc; cbn).

Lemma emit_open w bs b c :
  batches w = bs ++ [Some b] →
  emit (length bs) c w = Some (tt, with_batches (bs ++ [Some (b ++ [c])]) w).
Proof.
  intros E. munfold. rewrite E, lookup_snoc. cbn. by rewrite E, insert_snoc.
Qed.

(** ** PrepareFramebuffer *)

Lemma PrepareFramebuffer_run_keep self w n fb :
  _framebuffer self = Some n → framebuffers w !! n = Some fb → fb_size fb = frameSize w →
  PrepareFramebuffer_run self w
  = Some ((self, Some n), submitted (clear_batch w (Some n)) w).
Proof.
  destruct self as [p]. simpl. intros -> Efb Esz.
  unfold PrepareFramebuffer_run. mrun. rewrite Efb. cbn.
  destruct (decide _) as [Hne|_]; [by destruct Hne|].
  mrun. reflexivity.
Qed.

Lemma PrepareFramebuffer_run_build self w :
  match _framebuffer self with
  | Some n => ∃ fb, framebuffers w !! n = Some fb ∧ fb_size fb ≠ frameSize w
  | None => True
  end →
  PrepareFramebuffer_run self w
  = Some (({| _framebuffer := Some (length (framebuffers w)) |},
           Some (length (framebuffers w))),
          submitted (clear_batch w (Some (length (framebuffers w)))) (allocated w)).
Proof.
  destruct self as [[n|]]; simpl.
  - intros (fb & Efb & Hne). unfold PrepareFramebuffer_run. mrun. rewrite Efb. cbn.
    destruct (decide _) as [_|Heq]; [|by destruct Heq].
    mrun. rewrite length_snoc, <- app_assoc. reflexivity.
  - intros _. unfold PrepareFramebuffer_run. mrun.
    rewrite length_snoc, <- app_assoc. reflexivity.
Qed.

(** Every run from a node that is in order, in one statement: the
    framebuffer the node owns afterwards and the world it leaves. *)
Lemma PrepareFramebuffer_run_cases self w :
  node_ok self w →
  (∃ n fb, _framebuffer self = Some n ∧ framebuffers w !! n = Some fb ∧
           fb_size fb = frameSize w ∧
           PrepareFramebuffer_run self w
           = Some ((self, Some n), submitted (clear_batch w (Some n)) w)) ∨
  ((∀ n fb, _framebuffer self = Some n → framebuffers w !! n = Some fb →
            fb_size fb ≠ frameSize w) ∧
   PrepareFramebuffer_run self w
   = Some (({| _framebuffer := Some (length (framebuffers w)) |},
            Some (length (framebuffers w))),
           submitted (clear_batch w (Some (length (framebuffers w)))) (allocated w))).
Proof.
  unfold node_ok. intros Hok.
  destruct (_framebuffer self) as [n|] eqn:Ep.
  - destruct (lookup_lt_is_Some_2 _ _ Hok) as [fb Efb].
    destruct (decide (fb_size fb = frameSize w)) as [Esz|Hne].
    + left. exists n, fb. eauto using PrepareFramebuffer_run_keep.
    + right. split.
      * intros n' fb' [= <-]. rewrite Efb. by intros [= <-].
      * apply PrepareFramebuffer_run_build. rewrite Ep. eauto.
  - right. split; [done|].
    apply PrepareFramebuffer_run_build. by rewrite Ep.
Qed.

(** One run from a node that is in order. *)
Lemma PrepareFramebuffer_run_step self w :
  node_ok self w →
  ∃ p fb w',
    PrepareFramebuffer_run self w = Some (({| _framebuffer := Some p |}, Some p), w') ∧
    framebuffers w' !! p = Some fb ∧
    fb_size fb = frameSize w ∧
    (0 ≤ iv_z (_viewport (args w)) < 2 ^ 32 → 0 ≤ iv_w (_viewport (args w)) < 2 ^ 32 →
     fb_size fb = {| uv_x := iv_z (_viewport (args w)); uv_y := iv_w (_viewport (args w)) |}) ∧
    node_ok {| _framebuffer := Some p |} w' ∧
    framebuffers w `prefix_of` framebuffers w' ∧
    textures w `prefix_of` textures w' ∧
    ∀ q old,
      _framebuffer self = Some q → framebuffers w !! q = Some old →
      fb_size old ≠ frameSize w →
      p ≠ q ∧ framebuffers w !! p = None ∧ framebuffers w' !! q = Some old ∧
      ∃ color depth format,
        fb_renderBuffers fb !! 0%nat = Some color ∧
        fb_depthStencilBuffer fb = Some (depth, format) ∧
        color ≠ depth ∧
        textures w !! color = None ∧ textures w !! depth = None ∧
        is_Some (textures w' !! color) ∧ is_Some (textures w' !! depth).
Proof.
  intros Hok.
  assert (Hsz : ∀ fb : Framebuffer, fb_size fb = frameSize w →
    0 ≤ iv_z (_viewport (args w)) < 2 ^ 32 → 0 ≤ iv_w (_viewport (args w)) < 2 ^ 32 →
    fb_size fb = {| uv_x := iv_z (_viewport (args w)); uv_y := iv_w (_viewport (args w)) |}).
  { intros fb -> Hz Hw. unfold frameSize, to_uint. by rewrite !Z.mod_small. }
  destruct (PrepareFramebuffer_run_cases self w Hok)
    as [(n & fb & Ep & Efb & Esz & Erun)|[Hne Erun]].
  - exists n, fb, (submitted (clear_batch w (Some n)) w).
    destruct self as [p]. simpl in Ep. subst p.
    split; [exact Erun|]. split; [exact Efb|]. split; [exact Esz|].
    split; [by apply Hsz|]. split; [exact Hok|]. split; [done|]. split; [done|].
    intros q old [= <-]. rewrite Efb. intros [= <-]. done.
  - exists (length (framebuffers w)), (forward_framebuffer w),
      (submitted (clear_batch w (Some (length (framebuffers w)))) (allocated w)).
    split; [exact Erun|]. cbn.
    split; [apply lookup_snoc|]. split; [done|].
    split; [by apply (Hsz (forward_framebuffer w))|].
    split; [unfold node_ok; cbn; rewrite length_snoc; lia|].
    split; [by apply prefix_app_r|]. split; [by apply prefix_app_r|].
    intros q old Ep Eold _.
    pose proof (lookup_lt_Some _ _ _ Eold) as Hq.
    split; [lia|]. split; [by apply lookup_ge_None_2|].
    split; [by rewrite lookup_app_l|].
    exists (length (textures w)), (S (length (textures w))),
      (Element_of SCALAR UINT32 DEPTH_STENCIL).
    split; [apply lookup_insert_eq|]. split; [done|]. split; [lia|].
    split; [by apply lookup_ge_None_2|]. split; [apply lookup_ge_None_2; lia|].
    split; apply lookup_lt_is_Some_2; rewrite length_app; simpl; lia.
Qed.

Lemma PrepareFramebuffer_frames_ok viewports self w :
  node_ok self w →
  ∃ self' w',
    PrepareFramebuffer_frames viewports self w = Some (self', w') ∧ node_ok self' w'.
Proof.
  revert self w. induction viewports as [|viewport viewports IH]; intros self w Hok.
  - exists self, w. done.
  - cbn [PrepareFramebuffer_frames]. rewrite bind_run. unfold modify at 1.
    destruct (PrepareFramebuffer_run_step self (with_viewport viewport w) Hok)
      as (p & fb & w1 & Erun & _ & _ & _ & Hok1 & _).
    rewrite bind_run, Erun. by apply IH.
Qed.

(** C2. For every sequence of viewports of earlier frames and every
    viewport of the next frame: the earlier frames run, and the run of
    [PrepareFramebuffer::run] for the next frame leaves the node with a
    framebuffer whose size is the size of that viewport (the two [int]s
    read as [unsigned], so the viewport's own numbers when they are not
    negative). When the framebuffer the node owned before had another
    size, the node lets go of it and owns a framebuffer object that did
    not exist before, with two attachments that did not exist before
    either; the old object is still in the world as it was, not
    resized. *)
Theorem PrepareFramebuffer_size_follows_viewport viewports viewport w :
  ∃ self w1,
    PrepareFramebuffer_frames viewports {| _framebuffer := None |} w = Some (self, w1) ∧
    ∃ p fb w2,
      PrepareFramebuffer_run self (with_viewport viewport w1)
      = Some (({| _framebuffer := Some p |}, Some p), w2) ∧
      framebuffers w2 !! p = Some fb ∧
      fb_size fb = {| uv_x := to_uint (iv_z viewport); uv_y := to_uint (iv_w viewport) |} ∧
      (0 ≤ iv_z viewport < 2 ^ 32 → 0 ≤ iv_w viewport < 2 ^ 32 →
       fb_size fb = {| uv_x := iv_z viewport; uv_y := iv_w viewport |}) ∧
      framebuffers w1 `prefix_of` framebuffers w2 ∧
      textures w1 `prefix_of` textures w2 ∧
      ∀ q old,
        _framebuffer self = Some q → framebuffers w1 !! q = Some old →
        fb_size old ≠ {| uv_x := to_uint (iv_z viewport); uv_y := to_uint (iv_w viewport) |} →
        p ≠ q ∧ framebuffers w1 !! p = None ∧ framebuffers w2 !! q = Some old ∧
        ∃ color depth format,
          fb_renderBuffers fb !! 0%nat = Some color ∧
          fb_depthStencilBuffer fb = Some (depth, format) ∧
          color ≠ depth ∧
          textures w1 !! color = None ∧ textures w1 !! depth = None ∧
          is_Some (textures w2 !! color) ∧ is_Some (textures w2 !! depth).
Proof.
  destruct (PrepareFramebuffer_frames_ok viewports {| _framebuffer := None |} w)
    as (self & w1 & Eframes & Hok); [done|].
  exists self, w1. split; [exact Eframes|].
  destruct (PrepareFramebuffer_run_step self (with_viewport viewport w1) Hok)
    as (p & fb & w2 & Erun & Efb & Esz & Hsz & _ & Hfbs & Htex & Hnew).
  exists p, fb, w2. done.
Qed.

(** C4. Every run of [PrepareFramebuffer::run], on the framebuffer it
    kept or on the one it built, appends exactly one batch to the frame:
    stereo off, viewport transform and scissor rectangle set to the
    viewport, the framebuffer of the node bound, and one clear of color,
    depth and stencil together. *)
Theorem PrepareFramebuffer_run_batch self w :
  node_ok self w →
  ∃ self' p w',
    PrepareFramebuffer_run self w = Some ((self', Some p), w') ∧
    _framebuffer self' = Some p ∧
    frame w' =
      frame w ++
      [[ enableStereo false;
         setViewportTransform (_viewport (args w));
         setStateScissorRect (_viewport (args w));
         setFramebuffer (Some p);
         clearFramebuffer (Z.lor (Z.lor BUFFER_COLOR0 BUFFER_DEPTH) BUFFER_STENCIL)
           {| v_x := 0; v_y := 0; v_z := 0; v_w := 1 |} 1 0 true ]] ∧
    batches w' = batches w ++ [None].
Proof.
  intros Hok.
  destruct (PrepareFramebuffer_run_cases self w Hok)
    as [(n & fb & Ep & _ & _ & Erun)|[_ Erun]].
  - exists self, n. eexists. split; [exact Erun|]. done.
  - eexists _, (length (framebuffers w)), _. split; [exact Erun|]. done.
Qed.

(** C9. The one clear of every run of [PrepareFramebuffer::run] has the
    same arguments whatever the viewport, the node and the world: color
    (0, 0, 0, 1), depth 1.0, stencil 0, scissor enabled. *)
Theorem PrepareFramebuffer_run_clear_values self w :
  node_ok self w →
  ∃ r w' b,
    PrepareFramebuffer_run self w = Some (r, w') ∧
    frame w' = frame w ++ [b] ∧
    List.filter is_clear b =
      [ clearFramebuffer (Z.lor (Z.lor BUFFER_COLOR0 BUFFER_DEPTH) BUFFER_STENCIL)
          {| v_x := 0; v_y := 0; v_z := 0; v_w := 1 |} 1 0 true ].
Proof.
  intros Hok.
  destruct (PrepareFramebuffer_run_cases self w Hok)
    as [(n & fb & _ & _ & _ & Erun)|[_ Erun]];
    (eexists _, _, _; split; [exact Erun|]; done).
Qed.

(** ** Stencil *)

Lemma Stencil_run_first w :
  Stencil_run {| _stencilPipeline := None |} w
  = Some ({| _stencilPipeline := Some (length (pipelines w)) |},
          no_batch (submitted (stencil_batch w (Some (length (pipelines w))))
            (with_pipelines (pipelines w ++ [stencil_pipeline w])
               (with_shaders (shaders w ++ stencil_shaders w) w)))).
Proof.
  unfold Stencil_run, Stencil_run_body, Stencil_getPipeline. mrun.
  rewrite length_snoc. mrun. rewrite <- app_assoc. reflexivity.
Qed.

Lemma Stencil_run_cached p w :
  Stencil_run {| _stencilPipeline := Some p |} w
  = Some ({| _stencilPipeline := Some p |},
          no_batch (submitted (stencil_batch w (Some p)) w)).
Proof.
  unfold Stencil_run, Stencil_run_body, Stencil_getPipeline. mrun. reflexivity.
Qed.

Lemma Stencil_runs_cached n p w :
  ∃ w',
    Stencil_runs n {| _stencilPipeline := Some p |} w
    = Some ({| _stencilPipeline := Some p |}, w') ∧
    _viewport (args w') = _viewport (args w) ∧
    pipelines w' = pipelines w ∧
    shaders w' = shaders w ∧
    frame w' = frame w ++ replicate n (stencil_batch w (Some p)).
Proof.
  revert w. induction n as [|n IH]; intros w.
  - exists w. cbn. by rewrite app_nil_r.
  - cbn [Stencil_runs]. rewrite bind_run, Stencil_run_cached.
    destruct (IH (no_batch (submitted (stencil_batch w (Some p)) w)))
      as (w' & Erun & Evp & Ep & Es & Ef).
    exists w'. split; [exact Erun|]. split; [by rewrite Evp|].
    split; [by rewrite Ep|]. split; [by rewrite Es|].
    rewrite Ef. cbn. by rewrite <- app_assoc.
Qed.

(** C3. However many times, at least once, [Stencil::run] runs on a
    node, the runs construct one pixel shader, one program and one
    pipeline, all in the first run; the pipeline tests depth without
    writing it, with less-or-equal; and every run binds that same
    pipeline object and draws the four-vertex strip. *)
Theorem Stencil_pipeline_built_once (N : nat) w :
  (1 ≤ N)%nat →
  ∃ w',
    Stencil_runs N {| _stencilPipeline := None |} w
    = Some ({| _stencilPipeline := Some (length (pipelines w)) |}, w') ∧
    pipelines w' =
      pipelines w ++
      [{| _program := ShaderObject (S (length (shaders w)));
          _state := {| st_depthTest := Some {| dt_enabled := true; dt_writeMask := false;
                                               dt_function := LESS_EQUAL |};
                       st_stencilTest := Some STENCIL_BACKGROUND_TEST |} |}] ∧
    shaders w' =
      shaders w ++
      [ Shader_Pixel nop_frag;
        Shader_Program DrawUnitQuadTexcoordVS (ShaderObject (length (shaders w))) true ] ∧
    frame w' =
      frame w ++
      replicate N
        [ enableStereo false;
          setViewportTransform (_viewport (args w));
          setStateScissorRect (_viewport (args w));
          setPipeline (Some (length (pipelines w)));
          draw TRIANGLE_STRIP 4 ].
Proof.
  destruct N as [|n]; [lia|]. intros _.
  cbn [Stencil_runs]. rewrite bind_run, Stencil_run_first.
  match goal with |- context [Stencil_runs n _ ?w1] =>
    destruct (Stencil_runs_cached n (length (pipelines w)) w1)
      as (w' & Erun & Evp & Ep & Es & Ef) end.
  exists w'. split; [exact Erun|]. split; [by rewrite Ep|]. split; [by rewrite Es|].
  rewrite Ef. cbn. by rewrite <- app_assoc.
Qed.

(** ** Draw and DrawBackground *)

Lemma Draw_run_unfold {drawTask : DrawTask} self items w :
  Draw_run self items w
  = match renderStateSortShapes (_shapePlumber self) items (-1)
            (in_batch (Draw_transforms w) w) with
    | Some (_, w1) => close_batch (length (batches w)) w1
    | None => None
    end.
Proof.
  unfold Draw_run, Draw_run_body, close_batch. mrun.
  unfold in_batch, Draw_transforms.
  match goal with |- match match ?a with _ => _ end with _ => _ end = match ?b with _ => _ end =>
    change a with b; destruct b as [[[] w1]|] end; [|reflexivity].
  destruct (batches w1 !! length (batches w)) as [[b|]|]; reflexivity.
Qed.

Lemma DrawBackground_run_unfold {render : RenderItems} background w :
  DrawBackground_run background w
  = match renderItems background (in_batch (DrawBackground_setup w) w) with
    | Some (_, w1) => close_batch (length (batches w)) w1
    | None => None
    end.
Proof.
  unfold DrawBackground_run, DrawBackground_run_body, close_batch. mrun.
  unfold in_batch, DrawBackground_setup.
  match goal with |- match match ?a with _ => _ end with _ => _ end = match ?b with _ => _ end =>
    change a with b; destruct b as [[[] w1]|] end; [|reflexivity].
  destruct (batches w1 !! length (batches w)) as [[b|]|]; reflexivity.
Qed.

Lemma close_batch_null batch w1 r w' :
  close_batch batch w1 = Some (r, w') → _batch (args w') = None.
Proof.
  unfold close_batch. destruct (mjoin _); [|done]. by intros [= _ <-].
Qed.

(** C6. Every run of [Draw::run] opens one batch and records in it, in
    this order and before anything else, the projection transform and
    the view transform evaluated from the view frustum of the render
    arguments and the identity as model transform; the items are rendered
    from that state, and the batch is then appended to the frame. *)
Theorem Draw_run_transforms {drawTask : DrawTask} self items w :
  ∃ w0,
    batches w0 =
      batches w ++
      [Some [ setProjectionTransform (evalProjectionMatrix (_viewFrustum (args w)));
              setViewTransform (evalViewTransform (_viewFrustum (args w)));
              setModelTransform Transform_identity ]] ∧
    _batch (args w0) = Some (length (batches w)) ∧
    frame w0 = frame w ∧
    Draw_run self items w
    = match renderStateSortShapes (_shapePlumber self) items (-1) w0 with
      | Some (_, w1) =>
          match mjoin (batches w1 !! length (batches w)) with
          | Some b =>
              Some (tt, no_batch (with_batches (<[length (batches w) := None]> (batches w1))
                                    (with_frame (frame w1 ++ [b]) w1)))
          | None => None
          end
      | None => None
      end.
Proof.
  exists (in_batch (Draw_transforms w) w).
  split; [done|]. split; [done|]. split; [done|].
  apply Draw_run_unfold.
Qed.

(** *** The dispatch of the specification records [dispatch] *)

Lemma forM_emit {A} (g : A → Command) (l : list A) w bs b :
  batches w = bs ++ [Some b] →
  forM_ l (λ x, emit (length bs) (g x)) w
  = Some (tt, with_batches (bs ++ [Some (b ++ map g l)]) w).
Proof.
  revert w b. induction l as [|x l IH]; intros w b E.
  - cbn. rewrite app_nil_r. destruct w. cbn in E. by subst.
  - cbn [forM_ map]. rewrite bind_run. erewrite emit_open by exact E.
    erewrite IH by reflexivity. by rewrite <- app_assoc.
Qed.









(** *** The batch pointer of the render arguments *)

Lemma keeps_args_bind {A B} (m : M A) (f : A → M B) :
  keeps_args m → (∀ x, keeps_args (f x)) → keeps_args (m ≫= f).
Proof.
  intros Hm Hf w r w' E.
  apply bind_inv in E as (x & w1 & E1 & E2).
  rewrite (Hf _ _ _ _ E2). eauto.
Qed.

Lemma keeps_args_ret {A} (x : A) : keeps_args (mret x).
Proof. by intros w r w' [= _ <-]. Qed.

Lemma keeps_args_gets {A} (f : World → A) : keeps_args (gets f).
Proof. by intros w r w' [= _ <-]. Qed.

Lemma keeps_args_emit batch c : keeps_args (emit batch c).
Proof.
  intros w r w'. munfold. destruct (batches w !! batch) as [[b|]|]; cbn; [|done..].
  by intros [= _ <-].
Qed.

Lemma keeps_args_getPipeline self : keeps_args (Stencil_getPipeline self).
Proof.
  intros w r w'. unfold Stencil_getPipeline.
  destruct self as [[p|]]; mrun; by intros [= _ <-].
Qed.

Create HintDb keeps.
#[local] Hint Resolve keeps_args_ret keeps_args_gets keeps_args_emit keeps_args_getPipeline
  : keeps.

Lemma Stencil_run_body_batch self batch w self' w1 :
  Stencil_run_body self batch w = Some (self', w1) → _batch (args w1) = Some batch.
Proof.
  unfold Stencil_run_body. intros E.
  apply bind_inv in E as ([] & w0 & E0 & E).
  injection E0 as <-.
  match type of E with ?m _ = _ => assert (Hk : keeps_args m) end.
  { repeat (apply keeps_args_bind; [auto with keeps|intros]).
    match goal with x : (Stencil * PipelinePointer)%type |- _ => destruct x end.
    repeat (apply keeps_args_bind; [auto with keeps|intros]).
    auto with keeps. }
  by rewrite (Hk _ _ _ E).
Qed.

Lemma Stencil_run_total self w :
  ∃ self' w', Stencil_run self w = Some (self', w') ∧ _batch (args w') = None.
Proof.
  destruct self as [[p|]].
  - rewrite Stencil_run_cached. eauto.
  - rewrite Stencil_run_first. eauto.
Qed.

Lemma invoke_resets {drawTask : DrawTask} {render : RenderItems} i w r w' :
  invoke i w = Some (r, w') → _batch (args w') = None.
Proof.
  destruct i as [self items|self|background]; cbn [invoke].
  - rewrite Draw_run_unfold.
    destruct (renderStateSortShapes _ _ _ _) as [[[] w1]|]; [|done].
    apply close_batch_null.
  - intros E. apply bind_inv in E as (self' & w1 & E1 & [= _ <-]).
    destruct (Stencil_run_total self w) as (? & ? & E2 & Hn). congruence.
  - rewrite DrawBackground_run_unfold.
    destruct (renderItems _ _) as [[[] w1]|]; [|done].
    apply close_batch_null.
Qed.

(** C10. [Draw::run], [Stencil::run] and [DrawBackground::run] each
    leave [args->_batch] null when they return, whatever it was before
    and whatever the rendering they call does; so it is null after any
    sequence of such runs that starts with it null. While the batch is
    open the pointer is that batch: [Stencil::run] always returns, and
    the lambda of each run leaves, or hands to the rendering it calls,
    render arguments whose [_batch] is the batch [doInBatch] opened. *)
Theorem args_batch_reset {drawTask : DrawTask} {render : RenderItems} :
  (∀ i w r w', invoke i w = Some (r, w') → _batch (args w') = None) ∧
  (∀ runs w w',
     _batch (args w) = None → forM_ runs invoke w = Some (tt, w') →
     _batch (args w') = None) ∧
  (∀ self w, ∃ self' w', Stencil_run self w = Some (self', w') ∧ _batch (args w') = None) ∧
  (∀ self batch w self' w1,
     Stencil_run_body self batch w = Some (self', w1) → _batch (args w1) = Some batch) ∧
  (∀ self items w, ∃ w0,
     _batch (args w0) = Some (length (batches w)) ∧
     is_Some (mjoin (batches w0 !! length (batches w))) ∧
     Draw_run_body self items (length (batches w)) (with_batches (batches w ++ [Some []]) w)
     = renderStateSortShapes (_shapePlumber self) items (-1) w0) ∧
  (∀ background w, ∃ w0,
     _batch (args w0) = Some (length (batches w)) ∧
     is_Some (mjoin (batches w0 !! length (batches w))) ∧
     DrawBackground_run_body background (length (batches w))
       (with_batches (batches w ++ [Some []]) w)
     = renderItems background w0).
Proof.
  split; [apply @invoke_resets|].
  split.
  { intros runs. induction runs as [|i runs IH]; intros w w' Hw E.
    - by injection E as <-.
    - cbn [forM_] in E. apply bind_inv in E as ([] & w1 & E1 & E2).
      eapply IH; [|exact E2]. by eapply invoke_resets. }
  split; [apply Stencil_run_total|].
  split; [apply Stencil_run_body_batch|].
  split.
  - intros self items w. exists (in_batch (Draw_transforms w) w).
    split; [done|]. split; [cbn; by rewrite lookup_snoc|].
    unfold Draw_run_body. mrun. reflexivity.
  - intros background w. exists (in_batch (DrawBackground_setup w) w).
    split; [done|]. split; [cbn; by rewrite lookup_snoc|].
    unfold DrawBackground_run_body. mrun. reflexivity.
Qed.

(** ** The graph *)

(** The jobs of the task [build] leaves. *)
Lemma build_jobs {fadeEffect : FadeEffect} task items :
  let before := _jobs (FadeEffect_build task (items OPAQUE_SHAPE)) in
  let n := length before in
  let shapePlumber := initForwardPipelines ShapePlumber_new getBatchSetter getItemUniformSetter in
  let external type := Job_external type (newJob type) in
  _jobs (RenderForwardTask_build task items) =
    before ++
    [ {| job_name := "LightingModel"; job_input := Varying_none;
         job_data := external MakeLightingModel |};
      {| job_name := "ZoneRenderer"; job_input := items META;
         job_data := external ZoneRendererTask |};
      {| job_name := "PrepareFramebuffer"; job_input := Varying_none;
         job_data := Job_PrepareFramebuffer {| _framebuffer := None |} |};
      {| job_name := "PrepareStencil"; job_input := Varying_output (n + 2);
         job_data := external PrepareStencil |};
      {| job_name := "DrawOpaques"; job_input := items OPAQUE_SHAPE;
         job_data := Job_Draw {| _shapePlumber := shapePlumber |} |};
      {| job_name := "DrawBackgroundDeferred"; job_input := Varying_output n;
         job_data := external DrawBackgroundStage |};
      {| job_name := "DrawTransparents"; job_input := items TRANSPARENT_SHAPE;
         job_data := Job_Draw {| _shapePlumber := shapePlumber |} |};
      {| job_name := "DrawMetaBounds"; job_input := items META;
         job_data := external DrawBounds |};
      {| job_name := "DrawBounds"; job_input := items OPAQUE_SHAPE;
         job_data := external DrawBounds |};
      {| job_name := "DrawTransparentBounds"; job_input := items TRANSPARENT_SHAPE;
         job_data := external DrawBounds |};
      {| job_name := "DrawZones"; job_input := Varying_output (n + 1);
         job_data := external DrawBounds |};
      {| job_name := "HUD"; job_input := Varying_none;
         job_data := external CompositeHUD |};
      {| job_name := "Blit"; job_input := Varying_output (n + 2);
         job_data := external Blit |} ].
Proof.
  intros before n shapePlumber external.
  unfold RenderForwardTask_build, addJob. cbn.
  fold before. rewrite !length_app. cbn. fold n.
  rewrite <- !app_assoc. cbn.
  replace (n + 1 + 1)%nat with (n + 2)%nat by lia.
  reflexivity.
Qed.

(** C1. [RenderForwardTask::build] appends to the jobs that
    [FadeEffect::build] left in the task these thirteen, in this order,
    Blit last: the input of PrepareStencil and of Blit is the output
    varying of PrepareFramebuffer, the input of ZoneRenderer is the metas
    bucket, the input of DrawZones is the output varying of
    ZoneRenderer. *)
Theorem RenderForwardTask_build_order {fadeEffect : FadeEffect} task items :
  let before := _jobs (FadeEffect_build task (items OPAQUE_SHAPE)) in
  let n := length before in
  let shapePlumber := initForwardPipelines ShapePlumber_new getBatchSetter getItemUniformSetter in
  let external type := Job_external type (newJob type) in
  _jobs (RenderForwardTask_build task items) =
    before ++
    [ {| job_name := "LightingModel"; job_input := Varying_none;
         job_data := external MakeLightingModel |};
      {| job_name := "ZoneRenderer"; job_input := items META;
         job_data := external ZoneRendererTask |};
      {| job_name := "PrepareFramebuffer"; job_input := Varying_none;
         job_data := Job_PrepareFramebuffer {| _framebuffer := None |} |};
      {| job_name := "PrepareStencil"; job_input := Varying_output (n + 2);
         job_data := external PrepareStencil |};
      {| job_name := "DrawOpaques"; job_input := items OPAQUE_SHAPE;
         job_data := Job_Draw {| _shapePlumber := shapePlumber |} |};
      {| job_name := "DrawBackgroundDeferred"; job_input := Varying_output n;
         job_data := external DrawBackgroundStage |};
      {| job_name := "DrawTransparents"; job_input := items TRANSPARENT_SHAPE;
         job_data := Job_Draw {| _shapePlumber := shapePlumber |} |};
      {| job_name := "DrawMetaBounds"; job_input := items META;
         job_data := external DrawBounds |};
      {| job_name := "DrawBounds"; job_input := items OPAQUE_SHAPE;
         job_data := external DrawBounds |};
      {| job_name := "DrawTransparentBounds"; job_input := items TRANSPARENT_SHAPE;
         job_data := external DrawBounds |};
      {| job_name := "DrawZones"; job_input := Varying_output (n + 1);
         job_data := external DrawBounds |};
      {| job_name := "HUD"; job_input := Varying_none;
         job_data := external CompositeHUD |};
      {| job_name := "Blit"; job_input := Varying_output (n + 2);
         job_data := external Blit |} ] ∧
  map job_name (_jobs (RenderForwardTask_build task items)) =
    map job_name before ++
    [ "LightingModel"; "ZoneRenderer"; "PrepareFramebuffer"; "PrepareStencil";
      "DrawOpaques"; "DrawBackgroundDeferred"; "DrawTransparents"; "DrawMetaBounds";
      "DrawBounds"; "DrawTransparentBounds"; "DrawZones"; "HUD"; "Blit" ] ∧
  last (map job_name (_jobs (RenderForwardTask_build task items))) = Some "Blit".
Proof.
  intros before n shapePlumber external.
  pose proof (build_jobs task items) as E. cbv zeta in E. fold before n in E.
  split; [exact E|].
  rewrite E, map_app. split; [reflexivity|].
  by rewrite last_app.
Qed.

(** ** Running the graph *)

Section Frame.
Context {drawTask : DrawTask} {externalJobs : ExternalJobs}.

Lemma run_jobs_cons i j js vs w :
  run_jobs i (j :: js) vs w
  = match run_job j (vs (job_input j)) w with
    | Some ((j', output), w1) =>
        match run_jobs (S i) js (<[Varying_output i := output]> vs) w1 with
        | Some ((js', vs', rs), w') =>
            Some ((j' :: js', vs',
                   {| run_name := job_name j; run_input := vs (job_input j);
                      run_output := output;
                      run_batches := drop (length (frame w)) (frame w1) |} :: rs), w')
        | None => None
        end
    | None => None
    end.
Proof.
  cbn [run_jobs]. munfold.
  destruct (run_job j (vs (job_input j)) w) as [[[j' output] w1]|]; [|done].
  destruct (run_jobs (S i) js _ w1) as [[[[js' vs'] rs] w']|]; done.
Qed.

Lemma run_jobs_app i l1 l2 vs w :
  run_jobs i (l1 ++ l2) vs w
  = match run_jobs i l1 vs w with
    | Some ((js1, vs1, rs1), w1) =>
        match run_jobs (i + length l1) l2 vs1 w1 with
        | Some ((js2, vs2, rs2), w2) => Some ((js1 ++ js2, vs2, rs1 ++ rs2), w2)
        | None => None
        end
    | None => None
    end.
Proof.
  revert i vs w. induction l1 as [|j l1 IH]; intros i vs w.
  - cbn. rewrite Nat.add_0_r.
    destruct (run_jobs i l2 vs w) as [[[[js2 vs2] rs2] w2]|]; done.
  - cbn [app length]. rewrite !run_jobs_cons.
    destruct (run_job j (vs (job_input j)) w) as [[[j' output] w1]|]; [|done].
    rewrite IH.
    destruct (run_jobs (S i) l1 _ w1) as [[[[js1 vs1] rs1] w1']|]; [|done].
    replace (i + S (length l1))%nat with (S i + length l1)%nat by lia.
    destruct (run_jobs (S i + length l1) l2 vs1 w1') as [[[[js2 vs2] rs2] w2]|]; done.
Qed.

Lemma run_jobs_shape i js vs w js' vs' rs w' :
  run_jobs i js vs w = Some ((js', vs', rs), w') →
  length js' = length js ∧ map run_name rs = map job_name js.
Proof.
  revert i vs w js' vs' rs w'.
  induction js as [|j js IH]; intros i vs w js' vs' rs w'.
  - by intros [= <- _ <- _].
  - rewrite run_jobs_cons.
    destruct (run_job j (vs (job_input j)) w) as [[[j' output] w1]|]; [|done].
    destruct (run_jobs (S i) js _ w1) as [[[[js1 vs1] rs1] w1']|] eqn:E; [|done].
    intros [= <- _ <- _]. destruct (IH _ _ _ _ _ _ _ E) as [L N].
    cbn. by rewrite L, N.
Qed.

(** A job writes the varying of its own output and no other. *)
Lemma run_jobs_varyings i js vs w js' vs' rs w' v :
  run_jobs i js vs w = Some ((js', vs', rs), w') →
  (∀ k, (i ≤ k < i + length js)%nat → v ≠ Varying_output k) →
  vs' v = vs v.
Proof.
  revert i vs w js' vs' rs w'.
  induction js as [|j js IH]; intros i vs w js' vs' rs w'.
  - by intros [= _ <- _ _].
  - rewrite run_jobs_cons.
    destruct (run_job j (vs (job_input j)) w) as [[[j' output] w1]|]; [|done].
    destruct (run_jobs (S i) js _ w1) as [[[[js1 vs1] rs1] w1']|] eqn:E; [|done].
    intros [= _ <- _ _] Hv. cbn [length] in Hv.
    rewrite (IH _ _ _ _ _ _ _ E) by (intros k Hk; apply Hv; lia).
    apply fn_lookup_insert_ne. intros <-. apply (Hv i); [lia|done].
Qed.

Lemma run_jobs_one i j vs w js' vs' rs w' :
  run_jobs i [j] vs w = Some ((js', vs', rs), w') →
  ∃ j' output w1,
    run_job j (vs (job_input j)) w = Some ((j', output), w1) ∧
    js' = [j'] ∧ vs' = <[Varying_output i := output]> vs ∧
    rs = [{| run_name := job_name j; run_input := vs (job_input j);
             run_output := output;
             run_batches := drop (length (frame w)) (frame w1) |}].
Proof.
  rewrite run_jobs_cons.
  destruct (run_job j (vs (job_input j)) w) as [[[j' output] w1]|]; [|done].
  cbn. intros [= <- <- <- _]. eauto 10.
Qed.

(** What a run of [PrepareFramebuffer::run] that returns has done. *)
Lemma PrepareFramebuffer_run_returns self w r w' :
  PrepareFramebuffer_run self w = Some (r, w') →
  ∃ p,
    r = ({| _framebuffer := Some p |}, Some p) ∧
    frame w' = frame w ++ [clear_batch w (Some p)].
Proof.
  intros Erun.
  assert (Hok : node_ok self w).
  { unfold node_ok. destruct (_framebuffer self) as [n|] eqn:Ep; [|done].
    destruct (framebuffers w !! n) as [fb|] eqn:Efb; [by eapply lookup_lt_Some|].
    destruct self as [p]. cbn in Ep. subst p.
    revert Erun. unfold PrepareFramebuffer_run. mrun. by rewrite Efb. }
  destruct (PrepareFramebuffer_run_cases self w Hok)
    as [(n & fb & Ep & _ & _ & Erun')|[_ Erun']];
    rewrite Erun' in Erun; injection Erun as <- <-.
  - exists n. destruct self as [p]. cbn in Ep. by subst p.
  - by exists (length (framebuffers w)).
Qed.

Lemma same_job_refl j : same_job j j.
Proof. unfold same_job. by destruct (job_data j). Qed.

Lemma same_job_trans a b c : same_job a b → same_job b c → same_job a c.
Proof.
  unfold same_job. intros (-> & -> & Hab) (-> & -> & Hbc).
  split; [done|]. split; [done|].
  destruct (job_data a), (job_data b), (job_data c); try done; congruence.
Qed.

Lemma run_job_same j input w j' output w' :
  run_job j input w = Some ((j', output), w') → same_job j j'.
Proof.
  unfold run_job, same_job. destruct j as [name v [self|self|type data]]; cbn.
  - intros E. apply bind_inv in E as ([self' p] & w1 & _ & [= <- _ _]). done.
  - destruct input; try done.
    intros E. apply bind_inv in E as ([] & w1 & _ & [= <- _ _]). done.
  - intros E. apply bind_inv in E as (a & w1 & _ & E).
    destruct (runJob type data input a) as [[data' out] bs].
    apply bind_inv in E as ([] & w2 & _ & [= <- _ _]). done.
Qed.

Lemma run_jobs_same i js vs w js' vs' rs w' :
  run_jobs i js vs w = Some ((js', vs', rs), w') → Forall2 same_job js js'.
Proof.
  revert i vs w js' vs' rs w'.
  induction js as [|j js IH]; intros i vs w js' vs' rs w'.
  - intros [= <- _ _ _]. constructor.
  - rewrite run_jobs_cons.
    destruct (run_job j (vs (job_input j)) w) as [[[j' output] w1]|] eqn:Ej; [|done].
    destruct (run_jobs (S i) js _ w1) as [[[[js1 vs1] rs1] w1']|] eqn:E; [|done].
    intros [= <- _ _ _]. constructor; [by eapply run_job_same|by eapply IH].
Qed.

Lemma frames_of_same built task :
  frames_of built task → Forall2 same_job (_jobs built) (_jobs task).
Proof.
  induction 1 as [|task vs w js' vs' rs w' _ IH Erun].
  - apply Forall_Forall2_diag, Forall_forall. intros. apply same_job_refl.
  - eapply Forall2_trans; [apply same_job_trans|exact IH|].
    by eapply run_jobs_same.
Qed.

(** C5. In every frame of the graph [build] makes, the first or a later
    one, with the nodes in whatever state the frames before left them:
    [PrepareFramebuffer::run] writes to its output a pointer that is not
    null, the framebuffer it bound and cleared in the one batch it
    submitted, and the framebuffer pointer [Blit] finds in its input in
    that frame is that same pointer, which is also the framebuffer the
    node owns when the frame ends. The task the frame leaves is again a
    task of the graph, so the same holds of the frame after. *)
Theorem Blit_input_is_PrepareFramebuffer_output {fadeEffect : FadeEffect}
    task items graph vs w js' vs' rs w' :
  frames_of (RenderForwardTask_build task items) graph →
  Task_run graph vs w = Some ((js', vs', rs), w') →
  let n := length (_jobs (FadeEffect_build task (items OPAQUE_SHAPE))) in
  ∃ prepare blit p viewport,
    rs !! (n + 2)%nat = Some prepare ∧
    run_name prepare = "PrepareFramebuffer" ∧
    run_output prepare = Value_framebuffer (Some p) ∧
    run_batches prepare =
      [[ enableStereo false;
         setViewportTransform viewport;
         setStateScissorRect viewport;
         setFramebuffer (Some p);
         clearFramebuffer (Z.lor (Z.lor BUFFER_COLOR0 BUFFER_DEPTH) BUFFER_STENCIL)
           {| v_x := 0; v_y := 0; v_z := 0; v_w := 1 |} 1 0 true ]] ∧
    rs !! (n + 12)%nat = Some blit ∧
    run_name blit = "Blit" ∧
    run_input blit = Value_framebuffer (Some p) ∧
    js' !! (n + 2)%nat
    = Some {| job_name := "PrepareFramebuffer"; job_input := Varying_none;
              job_data := Job_PrepareFramebuffer {| _framebuffer := Some p |} |} ∧
    frames_of (RenderForwardTask_build task items) {| _jobs := js' |}.
Proof.
  intros Hframes E n.
  pose proof (frames_more _ _ _ _ _ _ _ _ Hframes E) as Hnext.
  apply frames_of_same in Hframes. rewrite build_jobs in Hframes.
  cbv zeta in Hframes. fold n in Hframes.
  apply Forall2_app_inv_l in Hframes as (js0 & jsB & H0 & HB & Egraph).
  pose proof (Forall2_length _ _ _ H0) as Ln. fold n in Ln.
  do 13 (apply Forall2_cons_inv_l in HB as (? & jsB' & ? & HB & ->); rename jsB' into jsB).
  apply Forall2_nil_inv_l in HB as ->.
  repeat match goal with
         | H : same_job {| job_name := _; job_input := _; job_data := _ |} ?j |- _ =>
             destruct j as [? ? [?|?|? ?]]; destruct H as (Hname & Hinput & Hdata);
             cbn in Hname, Hinput, Hdata; try done; subst
         end.
  unfold Task_run in E. rewrite Egraph in E. clear Egraph.
  match type of E with
  | run_jobs 0 (js0 ++ ?a :: ?b :: ?c :: ?d1 :: ?d2 :: ?d3 :: ?d4 :: ?d5 :: ?d6 :: ?d7
                 :: ?d8 :: ?d9 :: [?e]) _ _ = _ =>
      change (run_jobs 0 (js0 ++ ([a; b] ++ ([c] ++
                ([d1; d2; d3; d4; d5; d6; d7; d8; d9] ++ [e])))) vs w
              = Some (js', vs', rs, w')) in E
  end.
  rewrite run_jobs_app in E.
  destruct (run_jobs 0 js0 vs w) as [[[[jsa vsa] rsa] wa]|] eqn:E0; [|done].
  rewrite run_jobs_app in E.
  destruct (run_jobs _ _ vsa wa) as [[[[js1 vs1] rs1] w1]|] eqn:E1; [|done].
  rewrite run_jobs_app in E.
  destruct (run_jobs _ _ vs1 w1) as [[[[js2 vs2] rs2] w2]|] eqn:E2; [|done].
  rewrite run_jobs_app in E.
  destruct (run_jobs _ _ vs2 w2) as [[[[js3 vs3] rs3] w3]|] eqn:E3; [|done].
  destruct (run_jobs _ _ vs3 w3) as [[[[js4 vs4] rs4] w4]|] eqn:E4; [|done].
  injection E as <- <- <- <-.
  cbn [length Nat.add] in *. rewrite <- Ln in *.
  destruct (run_jobs_shape _ _ _ _ _ _ _ _ E0) as [L0 N0].
  destruct (run_jobs_shape _ _ _ _ _ _ _ _ E1) as [L1 N1].
  destruct (run_jobs_shape _ _ _ _ _ _ _ _ E3) as [L3 N3].
  apply (f_equal length) in N0, N1, N3. rewrite !length_map in N0, N1, N3.
  cbn [length] in L1, N1, L3, N3.
  apply run_jobs_one in E2 as (j2 & out2 & w2' & R2 & -> & -> & ->).
  apply run_jobs_one in E4 as (j4 & out4 & w4' & R4 & -> & -> & ->).
  cbn [job_input job_name job_data run_job] in R2.
  apply bind_inv in R2 as ([self' q] & wp & R2 & [= <- <- <-]).
  apply PrepareFramebuffer_run_returns in R2 as (p & [= -> ->] & Eframe).
  assert (Ein : vs3 (Varying_output (n + 2)) = Value_framebuffer (Some p)).
  { rewrite (run_jobs_varyings _ _ _ _ _ _ _ _ (Varying_output (n + 2)) E3).
    - apply fn_lookup_insert.
    - intros k Hk [= Hk']. cbn [length] in Hk. lia. }
  eexists _, _, p, (_viewport (args w1)).
  split.
  { rewrite lookup_app_r by lia. rewrite lookup_app_r by lia.
    replace (n + 2 - length rsa - length rs1)%nat with 0%nat by lia. reflexivity. }
  split; [reflexivity|]. split; [reflexivity|].
  split.
  { cbn [run_batches]. by rewrite Eframe, drop_app_length. }
  split.
  { rewrite lookup_app_r by lia. rewrite lookup_app_r by lia.
    rewrite lookup_app_r by (cbn; lia). rewrite lookup_app_r by (cbn; lia).
    cbn [length].
    replace (n + 12 - length rsa - length rs1 - 1 - length rs3)%nat with 0%nat by lia.
    reflexivity. }
  split; [reflexivity|]. split; [exact Ein|].
  split; [|exact Hnext].
  rewrite lookup_app_r by lia. rewrite lookup_app_r by lia.
  replace (n + 2 - length jsa - length js1)%nat with 0%nat by lia. reflexivity.
Qed.

End Frame.

(** ** More on PrepareFramebuffer *)

(** X1. A node that owns a framebuffer keeps it exactly when its size is
    the viewport's width and height read as [unsigned]; where the
    viewport starts does not matter. When it keeps it, no framebuffer and
    no texture is created; otherwise one framebuffer and two textures
    are. *)
Theorem PrepareFramebuffer_run_keeps_iff self w n fb :
  _framebuffer self = Some n →
  framebuffers w !! n = Some fb →
  ∃ p w',
    PrepareFramebuffer_run self w = Some (({| _framebuffer := Some p |}, Some p), w') ∧
    (p = n ↔
     uv_x (fb_size fb) = to_uint (iv_z (_viewport (args w))) ∧
     uv_y (fb_size fb) = to_uint (iv_w (_viewport (args w)))) ∧
    (p = n → framebuffers w' = framebuffers w ∧ textures w' = textures w) ∧
    (p ≠ n →
     p = length (framebuffers w) ∧
     framebuffers w' = framebuffers w ++ [forward_framebuffer w] ∧
     length (textures w') = S (S (length (textures w)))).
Proof.
  intros Ep Efb.
  pose proof (lookup_lt_Some _ _ _ Efb) as Hn.
  destruct (decide (fb_size fb = frameSize w)) as [Esz|Hne].
  - exists n, (submitted (clear_batch w (Some n)) w).
    destruct self as [p]. cbn in Ep. subst p.
    split; [by eapply PrepareFramebuffer_run_keep|].
    split; [|split; [done|done]].
    split; [intros _; by rewrite Esz|done].
  - exists (length (framebuffers w)),
      (submitted (clear_batch w (Some (length (framebuffers w)))) (allocated w)).
    split; [apply PrepareFramebuffer_run_build; rewrite Ep; eauto|].
    split; [|split; [lia|]].
    + split; [lia|]. intros [Ex Ey]. destruct Hne.
      destruct (fb_size fb) as [x y]. cbn in Ex, Ey. by subst.
    + intros _. split; [done|]. split; [done|].
      cbn. rewrite length_app. cbn. lia.
Qed.

Lemma owns_node_ok self w current : owns self w current → node_ok self w.
Proof.
  unfold owns, node_ok. destruct current as [size|].
  - intros (n & fb & -> & Efb & _). by eapply lookup_lt_Some.
  - by intros ->.
Qed.

(** One frame from a node that owns a framebuffer of a known size, or
    none. *)
Lemma PrepareFramebuffer_frame_counts self w current viewport :
  owns self w current →
  ∃ self' w',
    PrepareFramebuffer_run self (with_viewport viewport w) = Some ((self', _framebuffer self'), w') ∧
    owns self' w' (Some (size_of viewport)) ∧
    length (framebuffers w')
    = (length (framebuffers w) + size_changes current [viewport])%nat ∧
    length (textures w')
    = (length (textures w) + 2 * size_changes current [viewport])%nat ∧
    length (frame w') = S (length (frame w)).
Proof.
  intros Hown. cbn [size_changes].
  destruct (decide (current = Some (size_of viewport))) as [->|Hne].
  - destruct Hown as (n & fb & Ep & Efb & Esz).
    destruct self as [p]. cbn in Ep. subst p.
    exists {| _framebuffer := Some n |},
      (submitted (clear_batch (with_viewport viewport w) (Some n)) (with_viewport viewport w)).
    split; [by eapply PrepareFramebuffer_run_keep|].
    split; [exists n, fb; done|]. cbn. rewrite length_app. cbn. lia.
  - exists {| _framebuffer := Some (length (framebuffers w)) |},
      (submitted (clear_batch (with_viewport viewport w) (Some (length (framebuffers w))))
         (allocated (with_viewport viewport w))).
    split.
    { apply (PrepareFramebuffer_run_build self (with_viewport viewport w)).
      destruct current as [size|].
      - destruct Hown as (n & fb & -> & Efb & Esz). exists fb. split; [done|].
        intros E. apply Hne. by rewrite <- Esz, E.
      - by rewrite Hown. }
    split.
    { eexists _, _. split; [reflexivity|]. split; [apply lookup_snoc|done]. }
    cbn. rewrite !length_app. cbn. lia.
Qed.

Lemma PrepareFramebuffer_frames_count viewports self w current :
  owns self w current →
  ∃ self' w',
    PrepareFramebuffer_frames viewports self w = Some (self', w') ∧
    length (framebuffers w')
    = (length (framebuffers w) + size_changes current viewports)%nat ∧
    length (textures w')
    = (length (textures w) + 2 * size_changes current viewports)%nat ∧
    length (frame w') = (length (frame w) + length viewports)%nat.
Proof.
  revert self w current.
  induction viewports as [|viewport viewports IH]; intros self w current Hown.
  - exists self, w. cbn. split; [done|]. lia.
  - destruct (PrepareFramebuffer_frame_counts self w current viewport Hown)
      as (self1 & w1 & Erun & Hown1 & Hf & Ht & Hfr).
    destruct (IH self1 w1 _ Hown1) as (self' & w' & Eframes & Hf' & Ht' & Hfr').
    exists self', w'.
    cbn [PrepareFramebuffer_frames]. rewrite bind_run. unfold modify at 1.
    rewrite bind_run, Erun. split; [exact Eframes|].
    cbn [size_changes length] in *. lia.
Qed.

(** X2. Over any sequence of frames from a new node,
    [PrepareFramebuffer::run] creates one framebuffer and two textures
    for the first frame and for every frame whose size differs from the
    frame before, none otherwise, and submits one batch a frame. *)
Theorem PrepareFramebuffer_allocates_on_size_change viewports w :
  ∃ self w',
    PrepareFramebuffer_frames viewports {| _framebuffer := None |} w = Some (self, w') ∧
    length (framebuffers w')
    = (length (framebuffers w) + size_changes None viewports)%nat ∧
    length (textures w')
    = (length (textures w) + 2 * size_changes None viewports)%nat ∧
    length (frame w') = (length (frame w) + length viewports)%nat.
Proof.
  destruct (PrepareFramebuffer_frames_count viewports {| _framebuffer := None |} w None)
    as (self & w' & Eframes & Hfbs & Htex & Hframe); [reflexivity|].
  exists self, w'. split; [exact Eframes|]. split; [exact Hfbs|]. split; [exact Htex|].
  exact Hframe.
Qed.

Lemma attachments_ok_grow w w' fb :
  textures w `prefix_of` textures w' → attachments_ok w fb → attachments_ok w' fb.
Proof.
  intros Hpre (color & depth & tc & td & Ec & Ed & Hne & Etc & Etd & Hrest).
  exists color, depth, tc, td.
  split; [done|]. split; [done|]. split; [done|].
  split; [by eapply prefix_lookup_Some|]. split; [by eapply prefix_lookup_Some|]. done.
Qed.

Lemma forward_framebuffer_ok w :
  attachments_ok (allocated w) (forward_framebuffer w).
Proof.
  exists (length (textures w)), (S (length (textures w))).
  eexists _, _. split; [apply lookup_insert_eq|]. split; [done|]. split; [lia|].
  split.
  { cbn. rewrite lookup_app_r by lia. by rewrite Nat.sub_diag. }
  split.
  { cbn. rewrite lookup_app_r by lia.
    by replace (S (length (textures w)) - length (textures w))%nat with 1%nat by lia. }
  done.
Qed.

(** What a node that is in order owns after a frame. *)
Lemma PrepareFramebuffer_frame_attachments self w :
  node_ok self w →
  (∀ n fb, _framebuffer self = Some n → framebuffers w !! n = Some fb →
           fb_name fb = "forward" ∧ attachments_ok w fb) →
  ∃ p fb w',
    PrepareFramebuffer_run self w = Some (({| _framebuffer := Some p |}, Some p), w') ∧
    framebuffers w' !! p = Some fb ∧
    fb_name fb = "forward" ∧ fb_size fb = frameSize w ∧ attachments_ok w' fb.
Proof.
  intros Hok Hinv.
  destruct (PrepareFramebuffer_run_cases self w Hok)
    as [(n & fb & Ep & Efb & Esz & Erun)|[_ Erun]].
  - destruct self as [p]. cbn in Ep. subst p.
    destruct (Hinv n fb eq_refl Efb) as [Hname Hatt].
    exists n, fb. eexists. split; [exact Erun|]. done.
  - eexists _, (forward_framebuffer w), _. split; [exact Erun|].
    split; [apply lookup_snoc|]. split; [done|]. split; [done|].
    apply forward_framebuffer_ok.
Qed.

Lemma PrepareFramebuffer_frames_attachments viewports self w :
  node_ok self w →
  (∀ n fb, _framebuffer self = Some n → framebuffers w !! n = Some fb →
           fb_name fb = "forward" ∧ attachments_ok w fb) →
  ∃ self' w',
    PrepareFramebuffer_frames viewports self w = Some (self', w') ∧
    node_ok self' w' ∧
    (viewports ≠ [] → is_Some (_framebuffer self')) ∧
    ∀ n fb, _framebuffer self' = Some n → framebuffers w' !! n = Some fb →
            fb_name fb = "forward" ∧ attachments_ok w' fb.
Proof.
  revert self w.
  induction viewports as [|viewport viewports IH]; intros self w Hok Hinv.
  - exists self, w. done.
  - destruct (PrepareFramebuffer_frame_attachments self (with_viewport viewport w) Hok Hinv)
      as (p & fb & w1 & Erun & Efb & Hname & _ & Hatt).
    destruct (IH {| _framebuffer := Some p |} w1) as (self' & w' & Eframes & Hok' & Hsome & Hinv').
    { cbn. by eapply lookup_lt_Some. }
    { intros n fb' [= <-]. rewrite Efb. by intros [= <-]. }
    exists self', w'.
    cbn [PrepareFramebuffer_frames]. rewrite bind_run. unfold modify at 1.
    rewrite bind_run, Erun. split; [exact Eframes|]. split; [exact Hok'|].
    split; [|exact Hinv']. intros _.
    destruct viewports; [|by apply Hsome].
    injection Eframes as <- _. by eexists.
Qed.

(** X3. After any frames, at least one, from a new node, the node owns a
    framebuffer named forward with a color attachment in slot 0 and a
    depth and stencil attachment: two different textures of the world,
    of the formats COLOR_SRGBA_32 and (SCALAR, UINT32, DEPTH_STENCIL),
    single mip, point sampled, each of the size of the framebuffer. *)
Theorem PrepareFramebuffer_owns_attached_framebuffer viewport viewports w :
  ∃ self w' p fb,
    PrepareFramebuffer_frames (viewport :: viewports) {| _framebuffer := None |} w
    = Some (self, w') ∧
    _framebuffer self = Some p ∧
    framebuffers w' !! p = Some fb ∧
    fb_name fb = "forward" ∧
    attachments_ok w' fb.
Proof.
  destruct (PrepareFramebuffer_frames_attachments (viewport :: viewports)
              {| _framebuffer := None |} w)
    as (self & w' & Eframes & Hok & Hsome & Hinv); [done|done|].
  destruct Hsome as [p Ep]; [done|].
  unfold node_ok in Hok. rewrite Ep in Hok.
  destruct (lookup_lt_is_Some_2 _ _ Hok) as [fb Efb].
  exists self, w', p, fb. destruct (Hinv p fb Ep Efb). done.
Qed.

Lemma PrepareFramebuffer_run_dangling self w n :
  _framebuffer self = Some n → framebuffers w !! n = None →
  PrepareFramebuffer_run self w = None.
Proof.
  destruct self as [p]. cbn. intros -> E.
  unfold PrepareFramebuffer_run. mrun. by rewrite E.
Qed.

(** X4. A run of [PrepareFramebuffer::run] that returns leaves the
    render arguments as they were, [_batch] included, which it never
    sets; it creates no shader and no pipeline, and leaves the batch
    objects that existed as they were. *)
Theorem PrepareFramebuffer_run_leaves self w r w' :
  PrepareFramebuffer_run self w = Some (r, w') →
  args w' = args w ∧
  shaders w' = shaders w ∧
  pipelines w' = pipelines w ∧
  batches w `prefix_of` batches w'.
Proof.
  intros Erun.
  assert (Hok : node_ok self w).
  { unfold node_ok. destruct (_framebuffer self) as [n|] eqn:Ep; [|done].
    destruct (framebuffers w !! n) as [fb|] eqn:Efb; [by eapply lookup_lt_Some|].
    by rewrite (PrepareFramebuffer_run_dangling self w n) in Erun. }
  destruct (PrepareFramebuffer_run_cases self w Hok)
    as [(n & fb & _ & _ & _ & Erun')|[_ Erun']];
    rewrite Erun' in Erun; injection Erun as _ <-;
    (split; [done|]; split; [done|]; split; [done|]; by apply prefix_app_r).
Qed.

(** ** More on Stencil *)

(** X5. [Stencil::getPipeline] never answers the null pointer: it answers
    the cached pipeline when there is one, without touching the world,
    and otherwise a pipeline it creates and caches; asked again, it
    answers the same pointer and changes nothing. *)
Theorem Stencil_getPipeline_cached self w :
  ∃ p self' w',
    Stencil_getPipeline self w = Some ((self', Some p), w') ∧
    _stencilPipeline self' = Some p ∧
    Stencil_getPipeline self' w' = Some ((self', Some p), w') ∧
    (∀ q, _stencilPipeline self = Some q → p = q ∧ self' = self ∧ w' = w) ∧
    (_stencilPipeline self = None →
     pipelines w !! p = None ∧
     pipelines w' !! p
     = Some {| _program := ShaderObject (S (length (shaders w))); _state := stencil_state |}).
Proof.
  destruct self as [[q|]].
  - exists q, {| _stencilPipeline := Some q |}, w.
    split; [reflexivity|]. split; [reflexivity|]. split; [reflexivity|].
    split; [by intros ? [= <-]|done].
  - exists (length (pipelines w)). eexists _, _.
    split; [unfold Stencil_getPipeline; mrun; rewrite length_snoc; mrun; reflexivity|].
    split; [reflexivity|]. split; [reflexivity|]. split; [done|].
    intros _. split; [by apply lookup_ge_None_2|]. cbn. apply lookup_snoc.
Qed.

(** X6. Every run of [Stencil::run], on a node with or without a cached
    pipeline, returns and appends exactly one batch: stereo off, viewport
    and scissor, a pipeline that is not null, and the draw of a
    four-vertex strip. It leaves the viewport and the view frustum, creates
    no framebuffer and no texture, and leaves the batch it opened
    destroyed and the older batch objects as they were. *)
Theorem Stencil_run_effect self w :
  ∃ p w',
    Stencil_run self w = Some ({| _stencilPipeline := Some p |}, w') ∧
    frame w' =
      frame w ++
      [[ enableStereo false;
         setViewportTransform (_viewport (args w));
         setStateScissorRect (_viewport (args w));
         setPipeline (Some p);
         draw TRIANGLE_STRIP 4 ]] ∧
    batches w' = batches w ++ [None] ∧
    _viewport (args w') = _viewport (args w) ∧
    _viewFrustum (args w') = _viewFrustum (args w) ∧
    framebuffers w' = framebuffers w ∧
    textures w' = textures w ∧
    (∀ q, _stencilPipeline self = Some q →
          p = q ∧ shaders w' = shaders w ∧ pipelines w' = pipelines w).
Proof.
  destruct self as [[q|]].
  - exists q. eexists. split; [apply Stencil_run_cached|].
    repeat (split; [reflexivity|]). by intros ? [= <-].
  - exists (length (pipelines w)). eexists. split; [apply Stencil_run_first|].
    repeat (split; [reflexivity|]). done.
Qed.

(** X7. A node that has a pipeline cached never constructs again and
    never checks the pointer: any number of runs leave the shaders and
    the pipelines of the world as they were and bind the cached pointer
    in every batch, whatever it points to. *)
Theorem Stencil_cached_never_rebuilds (N : nat) p w :
  ∃ w',
    Stencil_runs N {| _stencilPipeline := Some p |} w
    = Some ({| _stencilPipeline := Some p |}, w') ∧
    shaders w' = shaders w ∧
    pipelines w' = pipelines w ∧
    frame w' =
      frame w ++
      replicate N
        [ enableStereo false;
          setViewportTransform (_viewport (args w));
          setStateScissorRect (_viewport (args w));
          setPipeline (Some p);
          draw TRIANGLE_STRIP 4 ].
Proof.
  destruct (Stencil_runs_cached N p w) as (w' & Erun & _ & Ep & Es & Ef).
  exists w'. done.
Qed.

(** ** More on Draw and DrawBackground *)

(** X8. Every run of [DrawBackground::run] opens one batch and records in
    it, before it renders the background items: skybox on, the viewport
    transform and the scissor rectangle of the viewport, the projection
    and the view transform of the view frustum; it sets no model
    transform. The batch is then appended to the frame. *)
Theorem DrawBackground_run_setup {render : RenderItems} background w :
  ∃ w0,
    batches w0 =
      batches w ++
      [Some [ enableSkybox true;
              setViewportTransform (_viewport (args w));
              setStateScissorRect (_viewport (args w));
              setProjectionTransform (evalProjectionMatrix (_viewFrustum (args w)));
              setViewTransform (evalViewTransform (_viewFrustum (args w))) ]] ∧
    _batch (args w0) = Some (length (batches w)) ∧
    frame w0 = frame w ∧
    DrawBackground_run background w
    = match renderItems background w0 with
      | Some (_, w1) =>
          match mjoin (batches w1 !! length (batches w)) with
          | Some b =>
              Some (tt, no_batch (with_batches (<[length (batches w) := None]> (batches w1))
                                    (with_frame (frame w1 ++ [b]) w1)))
          | None => None
          end
      | None => None
      end.
Proof.
  exists (in_batch (DrawBackground_setup w) w).
  split; [done|]. split; [done|]. split; [done|].
  apply DrawBackground_run_unfold.
Qed.

Lemma records_run commands b w :
  records commands (in_batch b w) = Some (tt, in_batch (b ++ commands) w).
Proof.
  unfold records. rewrite bind_run. unfold gets at 1.
  rewrite bind_run. cbn [lift in_batch args with_batches with_args _batch].
  unfold mret at 1, M_ret at 1.
  pose proof (forM_emit id commands (in_batch b w) (batches w) b eq_refl) as E.
  rewrite map_id in E. exact E.
Qed.

(** X9. What the rendering called by [Draw::run] and by
    [DrawBackground::run] records through [args->_batch] is what the run
    submits: when [renderStateSortShapes] (called with the registry of
    the node, the items and the limit -1) or [renderItems] records
    commands in the batch [args->_batch] points to, the run returns, the
    one batch it appends to the frame holds the commands of the run
    followed by those commands in order, and the batch is destroyed. *)
Theorem Draw_run_submits_what_is_recorded
    (f : ShapePlumber → ItemBounds → Z → Batch) (g : ItemBounds → Batch) self items w :
  (∃ w',
     Draw_run (drawTask := DrawTask_records f) self items w = Some (tt, w') ∧
     frame w' =
       frame w ++
       [[ setProjectionTransform (evalProjectionMatrix (_viewFrustum (args w)));
          setViewTransform (evalViewTransform (_viewFrustum (args w)));
          setModelTransform Transform_identity ]
        ++ f (_shapePlumber self) items (-1)] ∧
     batches w' = batches w ++ [None] ∧
     _batch (args w') = None) ∧
  (∃ w',
     DrawBackground_run (render := RenderItems_records g) items w = Some (tt, w') ∧
     frame w' =
       frame w ++
       [[ enableSkybox true;
          setViewportTransform (_viewport (args w));
          setStateScissorRect (_viewport (args w));
          setProjectionTransform (evalProjectionMatrix (_viewFrustum (args w)));
          setViewTransform (evalViewTransform (_viewFrustum (args w))) ]
        ++ g items] ∧
     batches w' = batches w ++ [None] ∧
     _batch (args w') = None).
Proof.
  split.
  - eexists. rewrite Draw_run_unfold. cbn [renderStateSortShapes DrawTask_records].
    rewrite records_run. unfold close_batch, in_batch. cbn.
    rewrite lookup_snoc. cbn. rewrite insert_snoc. done.
  - eexists. rewrite DrawBackground_run_unfold. cbn [renderItems RenderItems_records].
    rewrite records_run. unfold close_batch, in_batch. cbn.
    rewrite lookup_snoc. cbn. rewrite insert_snoc. done.
Qed.

(** ** More on the graph *)

End Proofs.

(** * The theorems at work in the example setting *)

(** A frame at 800 by 600, then one at 1920 by 1080: the second run
    builds framebuffer 1 and leaves framebuffer 0 as it was. *)
Lemma PrepareFramebuffer_size_follows_viewport_witness :
  ∃ self w1 p fb w2,
    PrepareFramebuffer_frames [Example.viewport 800 600] {| _framebuffer := None |}
      Example.world = Some (self, w1) ∧
    PrepareFramebuffer_run self (with_viewport (Example.viewport 1920 1080) w1)
    = Some (({| _framebuffer := Some p |}, Some p), w2) ∧
    fb_size fb = {| uv_x := 1920; uv_y := 1080 |} ∧
    framebuffers w2 !! p = Some fb ∧
    framebuffers w1 `prefix_of` framebuffers w2.
Proof.
  destruct (PrepareFramebuffer_size_follows_viewport
              [Example.viewport 800 600] (Example.viewport 1920 1080) Example.world)
    as (self & w1 & Eframes & p & fb & w2 & Erun & Efb & _ & Esz & Hfbs & _).
  exists self, w1, p, fb, w2.
  split; [exact Eframes|]. split; [exact Erun|].
  split; [apply Esz; cbn; lia|]. split; [exact Efb|exact Hfbs].
Defined.

Lemma PrepareFramebuffer_run_batch_witness :
  node_ok Example.node Example.world_resized ∧
  ∃ self' p w',
    PrepareFramebuffer_run Example.node Example.world_resized = Some ((self', Some p), w') ∧
    length (frame w') = 1%nat.
Proof.
  assert (Hok : node_ok Example.node Example.world_resized) by (cbn; lia).
  split; [exact Hok|].
  destruct (PrepareFramebuffer_run_batch Example.node Example.world_resized Hok)
    as (self' & p & w' & Erun & _ & Ef & _).
  exists self', p, w'. split; [exact Erun|]. by rewrite Ef.
Defined.

Lemma PrepareFramebuffer_run_clear_values_witness :
  node_ok {| _framebuffer := None |} Example.world ∧
  ∃ r w' b,
    PrepareFramebuffer_run {| _framebuffer := None |} Example.world = Some (r, w') ∧
    frame w' = [b] ∧
    List.filter is_clear b =
      [ clearFramebuffer (Z.lor (Z.lor 1 (2 ^ 30)) (2 ^ 31))
          {| v_x := 0; v_y := 0; v_z := 0; v_w := 1 |} 1 0 true ].
Proof.
  assert (Hok : node_ok {| _framebuffer := None |} Example.world) by (cbn; lia).
  split; [exact Hok|].
  destruct (PrepareFramebuffer_run_clear_values {| _framebuffer := None |} Example.world Hok)
    as (r & w' & b & Erun & Ef & Ec).
  exists r, w', b. split; [exact Erun|]. split; [exact Ef|]. exact Ec.
Defined.

Lemma Stencil_pipeline_built_once_witness :
  (1 ≤ 3)%nat ∧
  ∃ w',
    Stencil_runs 3 {| _stencilPipeline := None |} Example.world
    = Some ({| _stencilPipeline := Some 0%nat |}, w') ∧
    length (pipelines w') = 1%nat ∧
    length (frame w') = 3%nat.
Proof.
  assert (H3 : (1 ≤ 3)%nat) by lia.
  split; [exact H3|].
  destruct (Stencil_pipeline_built_once 3 Example.world H3) as (w' & Erun & Ep & _ & Ef).
  exists w'. split; [exact Erun|]. split; [by rewrite Ep|by rewrite Ef].
Defined.

Lemma Blit_input_is_PrepareFramebuffer_output_witness :
  ∃ js1 vs1 rs1 w1 js2 vs2 rs2 w2,
    Task_run (drawTask := DrawTask_spec) (externalJobs := Example.externalJobs)
      Example.task Example.varyings Example.world
    = Some ((js1, vs1, rs1), w1) ∧
    Task_run (drawTask := DrawTask_spec) (externalJobs := Example.externalJobs)
      {| _jobs := js1 |} Example.varyings
      (with_viewport (Example.viewport 1920 1080) w1)
    = Some ((js2, vs2, rs2), w2) ∧
    ∃ prepare blit p,
      rs2 !! 2%nat = Some prepare ∧ run_output prepare = Value_framebuffer (Some p) ∧
      rs2 !! 12%nat = Some blit ∧ run_input blit = Value_framebuffer (Some p).
Proof.
  eassert (E1 : Task_run (drawTask := DrawTask_spec) (externalJobs := Example.externalJobs)
                  Example.task Example.varyings Example.world
                = Some ((_, _, _), _)) by (vm_compute; reflexivity).
  lazymatch type of E1 with
  | _ = Some (?js1, ?vs1, ?rs1, ?w1) =>
      eassert (E2 : Task_run (drawTask := DrawTask_spec)
                      (externalJobs := Example.externalJobs)
                      {| _jobs := js1 |} Example.varyings
                      (with_viewport (Example.viewport 1920 1080) w1)
                    = Some ((_, _, _), _)) by (vm_compute; reflexivity);
      exists js1, vs1, rs1, w1
  end.
  lazymatch type of E2 with
  | _ = Some (?js2, ?vs2, ?rs2, ?w2) => exists js2, vs2, rs2, w2
  end.
  split; [exact E1|]. split; [exact E2|].
  destruct (Blit_input_is_PrepareFramebuffer_output
              (drawTask := DrawTask_spec) (externalJobs := Example.externalJobs)
              (fadeEffect := Example.fadeEffect)
              {| _jobs := [] |} Varying_input _ _ _ _ _ _ _
              (frames_more _ _ _ _ _ _ _ _ (frames_none _) E1) E2)
    as (prepare & blit & p & viewport & E2' & _ & Eout & _ & E12 & _ & Ein & _).
  exists prepare, blit, p. split; [exact E2'|]. split; [exact Eout|].
  split; [exact E12|]. exact Ein.
Defined.


Lemma args_batch_reset_witness :
  ∃ w',
    forM_ [ Run_Stencil {| _stencilPipeline := None |};
            Run_Draw Example.draw Example.items;
            Run_DrawBackground Example.items ]
      (invoke (drawTask := DrawTask_spec) (render := Example.render)) Example.world
    = Some (tt, w') ∧
    _batch (args w') = None.
Proof.
  eexists. split; [vm_compute; reflexivity|].
  eapply (proj1 (proj2 (args_batch_reset (drawTask := DrawTask_spec)
                          (render := Example.render)))
            [ Run_Stencil {| _stencilPipeline := None |};
              Run_Draw Example.draw Example.items;
              Run_DrawBackground Example.items ] Example.world);
    [reflexivity|vm_compute; reflexivity].
Defined.

(** The viewport moves and keeps its size: the node keeps framebuffer 0
    and the world gets no new framebuffer and no new texture. *)
Lemma PrepareFramebuffer_run_keeps_iff_witness :
  ∃ w',
    PrepareFramebuffer_run Example.node Example.world_moved
    = Some (({| _framebuffer := Some 0%nat |}, Some 0%nat), w') ∧
    framebuffers w' = framebuffers Example.world_moved ∧
    textures w' = textures Example.world_moved.
Proof.
  edestruct (PrepareFramebuffer_run_keeps_iff Example.node Example.world_moved 0)
    as (p & w' & Erun & Hiff & Hkeep & _); [reflexivity|reflexivity|].
  assert (Hp : p = 0%nat) by (apply Hiff; split; reflexivity).
  subst p. exists w'. split; [exact Erun|]. by apply Hkeep.
Defined.

Lemma PrepareFramebuffer_run_leaves_witness :
  ∃ r w',
    PrepareFramebuffer_run Example.node Example.world_resized = Some (r, w') ∧
    args w' = args Example.world_resized ∧
    pipelines w' = [].
Proof.
  eassert (Erun : PrepareFramebuffer_run Example.node Example.world_resized = Some (_, _))
    by (vm_compute; reflexivity).
  destruct (PrepareFramebuffer_run_leaves _ _ _ _ Erun) as (Ea & _ & Ep & _).
  eexists _, _. split; [exact Erun|]. split; [exact Ea|exact Ep].
Defined.

